(** * Report layout and limit resolution of the vessel report generator

    A shallow embedding of [dashbored/report_utils.py] (limit validation,
    parameter-name normalisation, limit lookup) and of the
    [ReportPDFGenerator] class of [dashbored/generate_vessel_report.py]
    (page cursor, 2x2 chart grid, paginated limit table), followed by the
    properties proved about them. *)

From Stdlib Require Import String Ascii DecimalString.
From Stdlib Require Import ZArith List Bool Lia Floats.
Import ListNotations.

Local Open Scope Z_scope.

(** ** Python strings

    A Python [str] is a sequence of Unicode code points; [len], slicing and
    [in] count code points, so a string is a list of code points here (the
    catalog keys contain non-ASCII characters such as the subscript four of
    [SULPHATE (SO4)]). *)

Module PyStr.

Definition pystr : Type := list N.

(** An ASCII literal as a Python string. *)
Definition lit (s : string) : pystr :=
  map N_of_ascii (list_ascii_of_string s).
Arguments lit s%_string.

Definition eqb (a b : pystr) : bool :=
  if list_eq_dec N.eq_dec a b then true else false.

(** [s.startswith(p)] *)
Fixpoint startswith (p s : pystr) : bool :=
  match p, s with
  | [], _ => true
  | _ :: _, [] => false
  | a :: p', b :: s' => N.eqb a b && startswith p' s'
  end.

(** [sub in s]: [sub] occurs in [s] as a contiguous run of code points. *)
Fixpoint contains (sub s : pystr) : bool :=
  startswith sub s ||
  match s with
  | [] => false
  | _ :: s' => contains sub s'
  end.

(** [s.endswith(p)] *)
Definition endswith (p s : pystr) : bool :=
  startswith (rev p) (rev s).

(** [s[:n]] for a non-negative [n]. *)
Definition prefix (n : nat) (s : pystr) : pystr := firstn n s.

(** [a < b] on strings: lexicographic on code points. *)
Fixpoint ltb (a b : pystr) : bool :=
  match a, b with
  | _, [] => false
  | [], _ :: _ => true
  | x :: a', y :: b' => N.ltb x y || (N.eqb x y && ltb a' b')
  end.

(** [s.replace(old, new)] for one-character [old] and [new]. *)
Definition replace_char (old new : N) (s : pystr) : pystr :=
  map (fun c => if N.eqb c old then new else c) s.

End PyStr.

Import PyStr.

(** ** Python values and float conversion *)

Inductive exn : Type := ValueError | TypeError | OverflowError.

Inductive result (A : Type) : Type :=
| Ok (a : A)
| Raise (e : exn).
Arguments Ok {A} a.
Arguments Raise {A} e.

(** How a call ends: it returns, it raises, or its loop is still running when
    the fuel is spent. *)
Inductive outcome (A : Type) : Type :=
| Done (a : A)
| Raised (e : exn)
| OutOfFuel.
Arguments Done {A} a.
Arguments Raised {A} e.
Arguments OutOfFuel {A}.

(** The values a measurement field or a catalog limit can hold: [None], an
    [int], a [float] (IEEE binary64) or a [str]. *)
Inductive pyval : Type :=
| PyNone
| PyInt (z : Z)
| PyFloat (f : float)
| PyStr (s : pystr).

Definition is_none (v : pyval) : bool :=
  match v with PyNone => true | _ => false end.

(** [float(z)] for an [int]: round to nearest, ties to even; an [int] too
    large for a double raises [OverflowError]. *)
Definition float_of_int (z : Z) : result float :=
  let f := SF2Prim (binary_normalize prec emax z 0 false) in
  if PrimFloat.is_infinity f then Raise OverflowError else Ok f.

(** The interpreter's built-ins the report code calls and that are no part of
    the repository: [str.upper], [str.strip], the parser behind [float(str)]
    ([None] when it raises [ValueError]), [str(v)] and the format
    [f"{v:.1f}"] (which raises [OverflowError] on an [int] too large for a
    double). *)
Class PyBuiltins : Type := {
  upper : pystr -> pystr;
  strip : pystr -> pystr;
  float_of_str : pystr -> option float;
  str_of : pyval -> pystr;
  format_1f : pyval -> result pystr
}.

Section WithBuiltins.

Context `{B : PyBuiltins}.

(** [float(v)] *)
Definition py_float (v : pyval) : result float :=
  match v with
  | PyNone => Raise TypeError
  | PyInt z => float_of_int z
  | PyFloat f => Ok f
  | PyStr s =>
      match float_of_str s with
      | Some f => Ok f
      | None => Raise ValueError
      end
  end.

(** ** report_utils.py *)

(** [is_valid_limit(ideal_low, ideal_high)]: the [try] catches [ValueError]
    and [TypeError] only, so an [OverflowError] of [float] propagates. *)
Definition is_valid_limit (ideal_low ideal_high : pyval) : result bool :=
  if is_none ideal_low || is_none ideal_high then Ok false
  else
    match py_float ideal_low with
    | Raise OverflowError => Raise OverflowError
    | Raise _ => Ok false
    | Ok low =>
        match py_float ideal_high with
        | Raise OverflowError => Raise OverflowError
        | Raise _ => Ok false
        | Ok high =>
            if PrimFloat.ltb low 0 || PrimFloat.ltb high 0 then Ok false
            else if PrimFloat.ltb high low then Ok false
            else Ok true
        end
    end.

(** The limit lines [create_line_chart_by_unit] and [create_multi_line_chart]
    draw with [ax.axhline]: the two bounds when [is_valid_limit] holds, none
    otherwise. *)
Definition limit_lines (ideal_low ideal_high : pyval) : result (list pyval) :=
  match is_valid_limit ideal_low ideal_high with
  | Raise e => Raise e
  | Ok true => Ok [ideal_low; ideal_high]
  | Ok false => Ok []
  end.

(** Truth value of an optional string ([None] and the empty string are
    false). *)
Definition truthy (s : option pystr) : bool :=
  match s with
  | Some (_ :: _) => true
  | _ => false
  end.

Definition SULPHATE_SO4 : pystr := lit "SULPHATE (SO" ++ [8324%N] ++ lit ")".
Definition TOTAL_ALKALINITY : pystr :=
  lit "TOTAL ALKALINITY (AS CACO" ++ [8323%N] ++ lit ")".

(** [s in name] for a literal [s]. *)
Definition has_lit (name : pystr) (s : string) : bool := contains (lit s) name.
Arguments has_lit name s%_string.

(** [normalize_param_name_for_limits(param_name, equipment_type)] *)
Definition normalize_param_name_for_limits
    (param_name : pystr) (equipment_type : option pystr) : pystr :=
  match param_name with
  | [] => []
  | _ =>
  let name := upper param_name in
  if has_lit name "SULPHATE" || has_lit name "SULFATE" then SULPHATE_SO4
  else if has_lit name "PHOSPHAT" then lit "PHOSPHATE"
  else if has_lit name "ALKALINITY" then
    let boiler :=
      match equipment_type with
      | Some et =>
          truthy equipment_type &&
          (contains (lit "BOILER") (upper et) || contains (lit "EGE") (upper et))
      | None => false
      end in
    if boiler &&
       (has_lit name " M" || endswith (lit "M") name || has_lit name "M-ALK" || has_lit name "M (")
    then lit "ALKALINITY M"
    else if boiler &&
       (has_lit name " P" || endswith (lit "P") name || has_lit name "P-ALK" || has_lit name "P (")
    then lit "ALKALINITY P"
    else if has_lit name " M " || has_lit name " M(" || endswith (lit " M") name
            || PyStr.eqb name (lit "ALKALINITY M")
    then TOTAL_ALKALINITY
    else if has_lit name " P " || has_lit name " P(" || endswith (lit " P") name
    then lit "ALKALINITY P"
    else TOTAL_ALKALINITY
  else if has_lit name "CHLORIDE" then lit "CHLORIDE"
  else if startswith (lit "PH") name || has_lit name " PH" || has_lit name "PH-"
          || PyStr.eqb name (lit "PH")
  then lit "PH"
  else if has_lit name "CONDUCTIV" then lit "CONDUCTIVITY"
  else if has_lit name "DEHA" then lit "DEHA"
  else if has_lit name "HYDRAZINE" then lit "HYDRAZINE"
  else if has_lit name "NITRITE" then lit "NITRITE"
  else if has_lit name "HARDNESS" || has_lit name "HARDN" then lit "TOTAL HARDNESS"
  else if has_lit name "COD" then lit "COD"
  else if has_lit name "BOD" then lit "BOD"
  else if has_lit name "TURBIDITY" then lit "TURBIDITY"
  else if has_lit name "SUSPENDED" || has_lit name "TSS" then lit "TOTAL SUSPENDED SOLIDS"
  else if has_lit name "CHLORINE" then
    if has_lit name "FREE" then lit "FREE CHLORINE"
    else if has_lit name "TOTAL" then lit "TOTAL CHLORINE"
    else if has_lit name "COMBINED" then lit "COMBINED CHLORINE"
    else lit "TOTAL CHLORINE"
  else if has_lit name "COPPER" then lit "COPPER (CU)"
  else if has_lit name "IRON" && negb (has_lit name "OIL") then lit "IRON (FE)"
  else if has_lit name "NICKEL" then lit "NICKEL (NI)"
  else if has_lit name "ZINC" then lit "ZINC (ZN)"
  else if has_lit name "TDS" || has_lit name "DISSOLVED SOLID"
  then lit "TOTAL DISSOLVED SOLIDS (TDS)"
  else strip name
  end.

(** One entry of the limit catalog: the dict
    [{'lower_limit': ..., 'upper_limit': ...}]. *)
Record limit_entry : Type := {
  lower_limit : pyval;
  upper_limit : pyval
}.

(** The dict [get_all_limits_for_equipment] returns, in insertion order
    (the order [items()] iterates in); a key occurs once. *)
Definition limits_dict : Type := list (pystr * limit_entry).

(** [limits[key]] when [key in limits]. *)
Definition dict_get (key : pystr) (limits : limits_dict) : option limit_entry :=
  option_map snd (find (fun kv => PyStr.eqb (fst kv) key) limits).

Definition len (s : pystr) : Z := Z.of_nat (length s).

(** The test of the fuzzy loop's two [if]s on one item. *)
Definition fuzzy_match (normalized : pystr) (kv : pystr * limit_entry) : bool :=
  let key := fst kv in
  ((3 <? len key) && contains key normalized)
  || ((3 <? len normalized) && contains normalized key).

(** The [for key, val in limits.items()] loop: the first item either [if]
    accepts. *)
Definition fuzzy_find (normalized : pystr) (limits : limits_dict)
  : option (pystr * limit_entry) :=
  find (fuzzy_match normalized) limits.

Definition limits_of (e : limit_entry) : pyval * pyval :=
  (lower_limit e, upper_limit e).

(** [get_limits_for_pdf(equipment_type, parameter_name)]; [catalog] is
    [models.get_all_limits_for_equipment]. *)
Definition get_limits_for_pdf
    (catalog : pystr -> limits_dict)
    (equipment_type parameter_name : pystr) : pyval * pyval :=
  let limits := catalog equipment_type in
  match limits with
  | [] => (PyNone, PyNone)
  | _ =>
      let normalized :=
        normalize_param_name_for_limits parameter_name (Some equipment_type) in
      match dict_get normalized limits with
      | Some e => limits_of e
      | None =>
          match fuzzy_find normalized limits with
          | Some (_, val) => limits_of val
          | None => (PyNone, PyNone)
          end
      end
  end.

(** ** generate_vessel_report.py: the rows of the limit table *)

(** A measurement record as the table reads it: [measurement_date],
    [unit_id], [parameter_name] and [unit] through [get] with their defaults,
    [value_numeric] as fetched. *)
Record measurement : Type := {
  measurement_date : pystr;
  unit_id : pystr;
  parameter_name : pystr;
  value_numeric : pyval;
  unit_of_measure : option pystr
}.

(** The [replacements] of [sanitize_unit_for_pdf], in the dict's order:
    superscript minus and plus, superscript digits, subscript digits. *)
Definition replacements : list (N * N) :=
  [ (8315, 45); (8314, 43);
    (8304, 48); (185, 49); (178, 50); (179, 51); (8308, 52);
    (8309, 53); (8310, 54); (8311, 55); (8312, 56); (8313, 57);
    (8320, 48); (8321, 49); (8322, 50); (8323, 51); (8324, 52);
    (8325, 53); (8326, 54); (8327, 55); (8328, 56); (8329, 57) ]%N.

(** [sanitize_unit_for_pdf(unit_str)] *)
Definition sanitize_unit_for_pdf (unit_str : pystr) : pystr :=
  match unit_str with
  | [] => unit_str
  | _ =>
      fold_left (fun result ua => replace_char (fst ua) (snd ua) result)
                replacements unit_str
  end.

(** [sorted(data, key=measurement_date, reverse=True)]: a stable sort,
    latest date first, records of one date in their original order. *)
Fixpoint insert_desc (x : measurement) (l : list measurement) : list measurement :=
  match l with
  | [] => [x]
  | y :: l' =>
      if PyStr.ltb (measurement_date x) (measurement_date y)
      then y :: insert_desc x l'
      else x :: y :: l'
  end.

Definition sorted_by_date_desc (data : list measurement) : list measurement :=
  fold_right insert_desc [] data.

(** The out-of-limits test of one row (the [if low is not None ...] block
    with its [try] and bare [except]): [or] evaluates its right operand, and
    so [float(high)], only when [float(value) < float(low)] is false. *)
Definition is_alert (value low high : pyval) : bool :=
  if negb (is_none low) && negb (is_none high) then
    match py_float value with
    | Raise _ => false
    | Ok v =>
        match py_float low with
        | Raise _ => false
        | Ok l =>
            if PrimFloat.ltb v l then true
            else
              match py_float high with
              | Raise _ => false
              | Ok h => PrimFloat.ltb h v
              end
        end
    end
  else false.

(** A table row: seven display strings. *)
Definition table_row : Type := list pystr.

(** An alert cell: [(row_idx, column)]. *)
Definition alert_cell : Type := (Z * Z)%type.

(** [f"{value:.1f}" if isinstance(value, (int, float)) else str(value)] *)
Definition value_display (value : pyval) : result pystr :=
  match value with
  | PyInt _ | PyFloat _ => format_1f value
  | _ => Ok (str_of value)
  end.

(** The row and the alert cells one record with a value contributes. *)
Definition row_of
    (catalog : pystr -> limits_dict) (equipment_type : pystr)
    (row_idx : Z) (item : measurement) : result (table_row * list alert_cell) :=
  let date := prefix 10 (measurement_date item) in
  let unit := unit_id item in
  let param_name := parameter_name item in
  let value := value_numeric item in
  let '(low, high) := get_limits_for_pdf catalog equipment_type param_name in
  let limits_str :=
    if negb (is_none low) && negb (is_none high)
    then str_of low ++ lit "-" ++ str_of high
    else lit "-" in
  let alert := is_alert value low high in
  let status := if alert then lit "ALERT" else lit "OK" in
  let cells := if alert then [(row_idx, 3); (row_idx, 6)] else [] in
  let short_param :=
    if (20 <? len param_name) then prefix 20 param_name else param_name in
  match value_display value with
  | Raise e => Raise e
  | Ok value_str0 =>
      let value_str := if alert then value_str0 ++ lit "*" else value_str0 in
      let meas_unit :=
        sanitize_unit_for_pdf
          (if truthy (unit_of_measure item)
           then match unit_of_measure item with Some u => u | None => lit "-" end
           else lit "-") in
      Ok ([date; unit; short_param; value_str; meas_unit; limits_str; status],
          cells)
  end.

(** The [for item in sorted(...)] loop from [row_idx] on: a record whose
    value is [None] is skipped by [continue]. *)
Fixpoint rows_from
    (catalog : pystr -> limits_dict) (equipment_type : pystr)
    (row_idx : Z) (items : list measurement)
  : result (list table_row * list alert_cell) :=
  match items with
  | [] => Ok ([], [])
  | item :: rest =>
      if is_none (value_numeric item)
      then rows_from catalog equipment_type row_idx rest
      else
        match row_of catalog equipment_type row_idx item with
        | Raise e => Raise e
        | Ok (row, cells) =>
            match rows_from catalog equipment_type (row_idx + 1) rest with
            | Raise e => Raise e
            | Ok (rows, alert_cells) => Ok (row :: rows, cells ++ alert_cells)
            end
        end
  end.

(** [rows] and [alert_cells] as the loop leaves them. *)
Definition build_rows
    (catalog : pystr -> limits_dict) (equipment_type : pystr)
    (data : list measurement) : result (list table_row * list alert_cell) :=
  rows_from catalog equipment_type 1 (sorted_by_date_desc data).

(** One row of [add_scavenge_drain_table] (the body of its row loop): the
    Iron and BN values of one date and unit, each absent or a float, against
    the limits read from the database, each absent or a pair of floats. The
    result is the row and whether its index joins [alert_rows]. *)
Definition outside (value : option float) (limits : option (float * float))
  : bool :=
  match value, limits with
  | Some v, Some (lo, hi) => PrimFloat.ltb v lo || PrimFloat.ltb hi v
  | _, _ => false
  end.

Definition value_or_dash (value : option float) : result pystr :=
  match value with
  | Some v => format_1f (PyFloat v)
  | None => Ok (lit "-")
  end.

Definition scavenge_drain_row (date unit : pystr)
    (iron_val bn_val : option float)
    (iron_limits bn_limits : option (float * float))
  : result (table_row * bool) :=
  match value_or_dash iron_val with
  | Raise e => Raise e
  | Ok iron_str =>
      match value_or_dash bn_val with
      | Raise e => Raise e
      | Ok bn_str =>
          let has_alert :=
            outside iron_val iron_limits || outside bn_val bn_limits in
          let alert_str := if has_alert then lit "Yes" else lit "No" in
          Ok ([date; unit; iron_str; bn_str; alert_str], has_alert)
      end
  end.

(** ** generate_vessel_report.py: the page cursor and the canvas

    The vertical position is a float in the source; every value it takes is
    the page height 792 minus integer constants and integer row counts, so
    it is an integer here. *)

(** A chart image (the [BytesIO] a chart function returns). *)
Definition image : Type := N.

(** A [TableStyle] command: name, start cell [(col, row)], end cell, and the
    remaining arguments. *)
Record style_command : Type := Style {
  style_name : string;
  style_from : Z * Z;
  style_to : Z * Z;
  style_args : list string
}.

(** What is written to the canvas, in order. The background image, fonts and
    colours, and the horizontal placement of a table (a float scaling of the
    column widths) are left out. *)
Inductive canvas_op : Type :=
| ShowPage
| DrawSectionHeader (name : option pystr) (page : option Z)
| DrawImage (img : image) (x y width height : Z)
| DrawString (x y : Z) (text : pystr)
| DrawLine (y : Z)
| DrawTable (y : Z) (table_data : list table_row) (style : list style_command).

(** The fields of [ReportPDFGenerator] the layout reads and writes. *)
Record pdf_state : Type := {
  y_position : Z;
  grid_position : Z;
  grid_row_y : option Z;
  section_page : Z;
  current_section : option pystr;
  canvas : list canvas_op
}.

Definition page_width : Z := 612.
Definition page_height : Z := 792.
Definition margin_left : Z := 25.
Definition margin_right : Z := 25.
Definition content_width : Z := page_width - margin_left - margin_right.
Definition header_bar_bottom : Z := page_height - 100.

(** The bottom threshold every overflow test compares with. *)
Definition bottom_margin : Z := 85.

(** The state [__init__] leaves. *)
Definition initial_state : pdf_state :=
  {| y_position := page_height - 115;
     grid_position := 0;
     grid_row_y := None;
     section_page := 1;
     current_section := None;
     canvas := [] |}.

Definition set_y (y : Z) (st : pdf_state) : pdf_state :=
  {| y_position := y;
     grid_position := grid_position st;
     grid_row_y := grid_row_y st;
     section_page := section_page st;
     current_section := current_section st;
     canvas := canvas st |}.

Definition set_grid_position (g : Z) (st : pdf_state) : pdf_state :=
  {| y_position := y_position st;
     grid_position := g;
     grid_row_y := grid_row_y st;
     section_page := section_page st;
     current_section := current_section st;
     canvas := canvas st |}.

Definition set_grid_row_y (y : option Z) (st : pdf_state) : pdf_state :=
  {| y_position := y_position st;
     grid_position := grid_position st;
     grid_row_y := y;
     section_page := section_page st;
     current_section := current_section st;
     canvas := canvas st |}.

Definition set_section (name : option pystr) (page : Z) (st : pdf_state)
  : pdf_state :=
  {| y_position := y_position st;
     grid_position := grid_position st;
     grid_row_y := grid_row_y st;
     section_page := page;
     current_section := name;
     canvas := canvas st |}.

(** One call on the canvas [self.c]. *)
Definition emit (op : canvas_op) (st : pdf_state) : pdf_state :=
  {| y_position := y_position st;
     grid_position := grid_position st;
     grid_row_y := grid_row_y st;
     section_page := section_page st;
     current_section := current_section st;
     canvas := canvas st ++ [op] |}.

(** [start_content_page(section_name, is_continuation)] *)
Definition start_content_page
    (section_name : option pystr) (is_continuation : bool) (st : pdf_state)
  : pdf_state :=
  let st1 :=
    if is_continuation
    then set_section (current_section st) (section_page st + 1) st
    else set_section section_name 1 st in
  let st2 :=
    if is_continuation
    then emit (DrawSectionHeader (current_section st1) (Some (section_page st1))) st1
    else emit (DrawSectionHeader section_name None) st1 in
  set_grid_position 0 (set_y (header_bar_bottom - 40) st2).

(** The two lines every overflow branch runs: [self.c.showPage()] and
    [self.start_content_page(self.current_section, is_continuation=True)]. *)
Definition continuation_page (st : pdf_state) : pdf_state :=
  let st1 := emit ShowPage st in
  start_content_page (current_section st1) true st1.

Definition grid_chart_width : Z := 275.
Definition grid_chart_height : Z := 245.
Definition h_gap : Z := 8.
Definition v_gap : Z := 15.

(** [add_chart(chart_bytes)]; reading a [grid_row_y] that is still [None]
    raises [TypeError]. *)
Definition add_chart (chart_bytes : option image) (st : pdf_state)
  : result (bool * pdf_state) :=
  match chart_bytes with
  | None => Ok (false, st)
  | Some img =>
      let st1 :=
        if grid_position st =? 0 then
          let st' :=
            if y_position st - grid_chart_height <? bottom_margin
            then continuation_page st else st in
          set_grid_row_y (Some (y_position st')) st'
        else st in
      let x_pos :=
        if grid_position st1 mod 2 =? 0 then margin_left
        else margin_left + grid_chart_width + h_gap in
      match grid_row_y st1 with
      | None => Raise TypeError
      | Some row_y =>
          let y_pos :=
            if grid_position st1 <? 2 then row_y - grid_chart_height
            else row_y - grid_chart_height * 2 - v_gap in
          let st2 :=
            emit (DrawImage img x_pos y_pos grid_chart_width grid_chart_height)
                 st1 in
          let st3 := set_grid_position (grid_position st2 + 1) st2 in
          if 4 <=? grid_position st3
          then Ok (true, set_y (y_pos - v_gap) (set_grid_position 0 st3))
          else Ok (true, st3)
      end
  end.

(** The chart height [flush_grid] uses ([chart_h]). *)
Definition flush_chart_h : Z := 260.

(** [flush_grid()] *)
Definition flush_grid (st : pdf_state) : result pdf_state :=
  if 0 <? grid_position st then
    let rows_used := (grid_position st + 1) / 2 in
    match grid_row_y st with
    | None => Raise TypeError
    | Some row_y =>
        Ok (set_grid_position 0
              (set_y (row_y - rows_used * flush_chart_h
                      - (rows_used - 1) * v_gap - v_gap) st))
    end
  else Ok st.

Definition wide_chart_height : Z := 280.

(** [add_wide_chart(chart_bytes)] *)
Definition add_wide_chart (chart_bytes : option image) (st : pdf_state)
  : result (bool * pdf_state) :=
  match chart_bytes with
  | None => Ok (false, st)
  | Some img =>
      match flush_grid st with
      | Raise e => Raise e
      | Ok st1 =>
          let st2 :=
            if y_position st1 - wide_chart_height <? bottom_margin
            then continuation_page st1 else st1 in
          let y_pos := y_position st2 - wide_chart_height in
          let st3 :=
            emit (DrawImage img margin_left y_pos content_width wide_chart_height)
                 st2 in
          Ok (true, set_y (y_pos - v_gap) st3)
      end
  end.

(** [add_subsection(title)] *)
Definition add_subsection (title : pystr) (st : pdf_state) : pdf_state :=
  let st1 := if y_position st <? 180 then continuation_page st else st in
  let st2 := emit (DrawString margin_left (y_position st1) title) st1 in
  set_y (y_position st2 - 40 - 22) st2.

(** [add_text(text)] *)
Definition add_text (text : pystr) (st : pdf_state) : pdf_state :=
  let st1 :=
    if y_position st <? bottom_margin then continuation_page st else st in
  let st2 := emit (DrawString margin_left (y_position st1) text) st1 in
  set_y (y_position st2 - 16) st2.

(** The style of [add_table]. *)
Definition add_table_style : list style_command :=
  [ Style "BACKGROUND" (0, 0) (-1, 0) ["#f57c00"];
    Style "TEXTCOLOR" (0, 0) (-1, 0) ["whitesmoke"];
    Style "ALIGN" (0, 0) (-1, -1) ["CENTER"];
    Style "FONTNAME" (0, 0) (-1, 0) ["Helvetica-Bold"];
    Style "FONTSIZE" (0, 0) (-1, 0) ["10"];
    Style "BOTTOMPADDING" (0, 0) (-1, 0) ["10"];
    Style "TOPPADDING" (0, 0) (-1, 0) ["10"];
    Style "BACKGROUND" (0, 1) (-1, -1) ["white"];
    Style "GRID" (0, 0) (-1, -1) ["0.5"; "#dee2e6"];
    Style "FONTNAME" (0, 1) (-1, -1) ["Helvetica"];
    Style "FONTSIZE" (0, 1) (-1, -1) ["9"];
    Style "ROWBACKGROUNDS" (0, 1) (-1, -1) ["white"; "#f8f9fa"];
    Style "TOPPADDING" (0, 1) (-1, -1) ["6"];
    Style "BOTTOMPADDING" (0, 1) (-1, -1) ["6"] ]%string.

(** [add_table(data, headers)] *)
Definition add_table (data : list table_row) (headers : table_row)
    (st : pdf_state) : pdf_state :=
  match data with
  | [] => st
  | _ =>
      let table_data := headers :: data in
      let table_height := Z.of_nat (length table_data) * 22 + 10 in
      let st1 :=
        if y_position st - table_height <? bottom_margin
        then continuation_page st else st in
      let st2 :=
        emit (DrawTable (y_position st1 - table_height) table_data
                add_table_style) st1 in
      set_y (y_position st2 - (table_height + 25)) st2
  end.

Definition headers : table_row :=
  [ lit "Date"; lit "Sampling Point"; lit "Parameter"; lit "Value";
    lit "Unit"; lit "Limits"; lit "Status" ].

(** The [style_commands] every page of the limit table starts from. *)
Definition base_style_commands : list style_command :=
  [ Style "BACKGROUND" (0, 0) (-1, 0) ["#2c5282"];
    Style "TEXTCOLOR" (0, 0) (-1, 0) ["whitesmoke"];
    Style "ALIGN" (0, 0) (-1, -1) ["CENTER"];
    Style "ALIGN" (2, 1) (2, -1) ["LEFT"];
    Style "FONTNAME" (0, 0) (-1, 0) ["Helvetica-Bold"];
    Style "FONTSIZE" (0, 0) (-1, 0) ["8"];
    Style "BOTTOMPADDING" (0, 0) (-1, 0) ["6"];
    Style "TOPPADDING" (0, 0) (-1, 0) ["6"];
    Style "BACKGROUND" (0, 1) (-1, -1) ["white"];
    Style "GRID" (0, 0) (-1, -1) ["0.5"; "#dee2e6"];
    Style "FONTNAME" (0, 1) (-1, -1) ["Helvetica"];
    Style "FONTSIZE" (0, 1) (-1, -1) ["7"];
    Style "ROWBACKGROUNDS" (0, 1) (-1, -1) ["white"; "#f8f9fa"];
    Style "TOPPADDING" (0, 1) (-1, -1) ["4"];
    Style "BOTTOMPADDING" (0, 1) (-1, -1) ["4"] ]%string.

(** The three commands that highlight the cell [(col, row)]. *)
Definition highlight_commands (col row : Z) : list style_command :=
  [ Style "BACKGROUND" (col, row) (col, row) ["#ffcccc"];
    Style "TEXTCOLOR" (col, row) (col, row) ["#c53030"];
    Style "FONTNAME" (col, row) (col, row) ["Helvetica-Bold"] ]%string.

(** One turn of [for (orig_row, col) in alert_cells]: the commands the cell
    adds to the page that starts at [start_idx] and holds [page_len] rows. *)
Definition remap_alert (start_idx page_len : nat) (cell : alert_cell)
  : list style_command :=
  let '(orig_row, col) := cell in
  let adjusted_row := orig_row - Z.of_nat start_idx in
  if (1 <=? adjusted_row) && (adjusted_row <=? Z.of_nat page_len)
  then highlight_commands col adjusted_row
  else [].

(** [rows[start_idx:end_idx]] *)
Definition slice {A : Type} (start_idx end_idx : nat) (l : list A) : list A :=
  firstn (end_idx - start_idx) (skipn start_idx l).

(** The rows of page [page_num]. *)
Definition page_rows_of (max_rows_per_page : nat) (rows : list table_row)
    (page_num : nat) : list table_row :=
  let start_idx := (page_num * max_rows_per_page)%nat in
  let end_idx := Nat.min (start_idx + max_rows_per_page) (length rows) in
  slice start_idx end_idx rows.

(** The [style_commands] of page [page_num]. *)
Definition page_style (max_rows_per_page : nat) (rows : list table_row)
    (alert_cells : list alert_cell) (page_num : nat) : list style_command :=
  let start_idx := (page_num * max_rows_per_page)%nat in
  base_style_commands ++
  flat_map
    (remap_alert start_idx
       (length (page_rows_of max_rows_per_page rows page_num)))
    alert_cells.

(** The body of the [while] loop for page [page_num]. *)
Definition render_page (max_rows_per_page : nat) (title : option pystr)
    (rows : list table_row) (alert_cells : list alert_cell)
    (page_num : nat) (st : pdf_state) : pdf_state :=
  let page_rows := page_rows_of max_rows_per_page rows page_num in
  let st1 :=
    if (0 <? page_num)%nat then
      let st' := continuation_page st in
      match title with
      | Some ((_ :: _) as t) => add_subsection (t ++ lit " (continued)") st'
      | _ => st'
      end
    else st in
  let table_data := headers :: page_rows in
  let style_commands := page_style max_rows_per_page rows alert_cells page_num in
  let table_height := Z.of_nat (length table_data) * 18 + 10 in
  let st2 :=
    emit (DrawTable (y_position st1 - table_height) table_data style_commands)
         st1 in
  set_y (y_position st2 - (table_height + 15)) st2.

(** [while page_num * max_rows_per_page < len(rows)]: [None] when the loop
    has not ended after [fuel] turns. *)
Fixpoint table_pages (fuel : nat) (max_rows_per_page : nat)
    (title : option pystr) (rows : list table_row)
    (alert_cells : list alert_cell) (page_num : nat) (st : pdf_state)
  : option pdf_state :=
  if (page_num * max_rows_per_page <? length rows)%nat then
    match fuel with
    | O => None
    | S fuel' =>
        table_pages fuel' max_rows_per_page title rows alert_cells
          (S page_num)
          (render_page max_rows_per_page title rows alert_cells page_num st)
    end
  else Some st.

(** The legend below the last page. *)
Definition add_legend (alert_cells : list alert_cell) (st : pdf_state)
  : pdf_state :=
  match alert_cells with
  | [] => st
  | _ =>
      let st1 :=
        emit (DrawString margin_left (y_position st)
                (lit "* Value outside limits (highlighted in red)")) st in
      set_y (y_position st1 - 15) st1
  end.

(** [add_data_table_with_limits] with its local [max_rows_per_page] as an
    argument ([params_list], which the body never reads, is left out). A
    loop that runs at all handles at least one row per turn when the page
    size is positive, so [len(rows)] turns are fuel enough. *)
Definition add_data_table_with_limits_at (max_rows_per_page : nat)
    (catalog : pystr -> limits_dict)
    (data : list measurement) (equipment_type : pystr)
    (title : option pystr) (new_page : bool) (st : pdf_state)
  : outcome pdf_state :=
  match data with
  | [] => Done st
  | _ =>
      match flush_grid st with
      | Raise e => Raised e
      | Ok st1 =>
          let st2 := if new_page then continuation_page st1 else st1 in
          let st3 :=
            match title with
            | Some ((_ :: _) as t) => add_subsection t st2
            | _ => st2
            end in
          match build_rows catalog equipment_type data with
          | Raise e => Raised e
          | Ok (rows, alert_cells) =>
              match rows with
              | [] => Done st3
              | _ =>
                  match table_pages (length rows) max_rows_per_page title
                          rows alert_cells 0 st3 with
                  | None => OutOfFuel
                  | Some st4 => Done (add_legend alert_cells st4)
                  end
              end
          end
      end
  end.

(** The page size the source sets. *)
Definition max_rows_per_page : nat := 24.

(** [add_data_table_with_limits(data, equipment_type, params_list, title,
    new_page)] *)
Definition add_data_table_with_limits :=
  add_data_table_with_limits_at max_rows_per_page.

End WithBuiltins.

(** ** Reference built-ins for concrete runs

    An instance of the built-ins to run the embedding on concrete inputs.
    [upper] is exact on strings whose cased letters are ASCII, [strip] on
    every string; [float_of_str] reads an optionally signed run of ASCII
    digits and takes every other string to raise [ValueError], so a string
    with a fraction, an exponent, blanks, underscores or the words inf and
    nan is outside it; [format_1f] is exact; [str_of] is exact on [None],
    [int] and [str], and on a [float] that one decimal digit writes
    exactly and whose magnitude is below 1e16. *)

Module Reference.

Definition upper_char (c : N) : N :=
  if ((97 <=? c) && (c <=? 122))%N then (c - 32)%N else c.

Definition ascii_upper (s : pystr) : pystr := map upper_char s.

(** The characters [str.isspace] accepts. *)
Definition is_space (c : N) : bool :=
  (((9 <=? c) && (c <=? 13)) || ((28 <=? c) && (c <=? 32))
   || (c =? 133) || (c =? 160) || (c =? 5760)
   || ((8192 <=? c) && (c <=? 8202))
   || (c =? 8232) || (c =? 8233) || (c =? 8239) || (c =? 8287)
   || (c =? 12288))%N.

Fixpoint lstrip (s : pystr) : pystr :=
  match s with
  | c :: s' => if is_space c then lstrip s' else s
  | [] => []
  end.

Definition py_strip (s : pystr) : pystr := rev (lstrip (rev (lstrip s))).

(** The decimal digits of an integer. *)
Definition decimal (z : Z) : pystr :=
  lit (DecimalString.NilZero.string_of_int (Z.to_int z)).

Definition digit_value (c : N) : option Z :=
  if ((48 <=? c) && (c <=? 57))%N then Some (Z.of_N c - 48) else None.

Fixpoint digits_value (acc : Z) (s : pystr) : option Z :=
  match s with
  | [] => Some acc
  | c :: s' =>
      match digit_value c with
      | Some d => digits_value (acc * 10 + d) s'
      | None => None
      end
  end.

Definition round_to_float (z : Z) : float :=
  SF2Prim (binary_normalize prec emax z 0 false).

Definition parse_digits (s : pystr) : option float :=
  match s with
  | [] => None
  | 45%N :: ((_ :: _) as d) => option_map (fun z => round_to_float (- z)) (digits_value 0 d)
  | 43%N :: ((_ :: _) as d) => option_map round_to_float (digits_value 0 d)
  | _ => option_map round_to_float (digits_value 0 s)
  end.

(** Tenths of [m * 2^e], rounded half to even. *)
Definition tenths (m : positive) (e : Z) : Z :=
  if 0 <=? e then Z.pos m * 2 ^ e * 10
  else
    let num := Z.pos m * 10 in
    let den := 2 ^ (- e) in
    let q := num / den in
    let r := num mod den in
    if den <? 2 * r then q + 1
    else if den =? 2 * r then (if Z.even q then q else q + 1)
    else q.

Definition fixed_1 (t : Z) : pystr :=
  decimal (t / 10) ++ lit "." ++ decimal (t mod 10).

(** [f"{x:.1f}"] for a float [x]. *)
Definition format_float_1f (x : float) : pystr :=
  match Prim2SF x with
  | S754_nan => lit "nan"
  | S754_infinity s => if s then lit "-inf" else lit "inf"
  | S754_zero s => if s then lit "-0.0" else lit "0.0"
  | S754_finite s m e =>
      (if s then lit "-" else []) ++ fixed_1 (tenths m e)
  end.

Definition py_format_1f (v : pyval) : result pystr :=
  match v with
  | PyInt z =>
      match float_of_int z with
      | Ok x => Ok (format_float_1f x)
      | Raise e => Raise e
      end
  | PyFloat x => Ok (format_float_1f x)
  | _ => Raise ValueError
  end.

Definition py_str (v : pyval) : pystr :=
  match v with
  | PyNone => lit "None"
  | PyInt z => decimal z
  | PyFloat x => format_float_1f x
  | PyStr s => s
  end.

Definition builtins : PyBuiltins := {|
  upper := ascii_upper;
  strip := py_strip;
  float_of_str := parse_digits;
  str_of := py_str;
  format_1f := py_format_1f
|}.

End Reference.

(** * Properties *)

(** ** Strings *)

Lemma eqb_eq (a b : pystr) : PyStr.eqb a b = true <-> a = b.
Proof.
  unfold PyStr.eqb. destruct (list_eq_dec N.eq_dec a b); split; congruence.
Qed.

Lemma startswith_length (p s : pystr) :
  startswith p s = true -> (length p <= length s)%nat.
Proof.
  revert s; induction p as [|a p IH]; intros [|b s] H; simpl in *;
    try lia; try discriminate.
  apply andb_true_iff in H as [_ H]. apply IH in H. lia.
Qed.

(** A string that occurs in another is no longer than it. *)
Lemma contains_length (sub s : pystr) :
  contains sub s = true -> (length sub <= length s)%nat.
Proof.
  induction s as [|b s IH]; simpl; intros H.
  - apply orb_true_iff in H as [H|H]; [|discriminate].
    now apply startswith_length in H.
  - apply orb_true_iff in H as [H|H].
    + now apply startswith_length in H.
    + apply IH in H. lia.
Qed.

Lemma contains_len (sub s : pystr) :
  contains sub s = true -> len sub <= len s.
Proof. intros H. apply contains_length in H. unfold len. lia. Qed.

(** ** Limit lookup *)

Section LimitLookup.

Context `{B : PyBuiltins}.

Lemma fuzzy_match_spec (n : pystr) (kv : pystr * limit_entry) :
  fuzzy_match n kv = true <->
  (3 < len (fst kv) /\ contains (fst kv) n = true)
  \/ (3 < len n /\ contains n (fst kv) = true).
Proof.
  unfold fuzzy_match.
  rewrite orb_true_iff, !andb_true_iff, !Z.ltb_lt. reflexivity.
Qed.

(** Whichever way the containment goes, both strings are longer than 3. *)
Lemma fuzzy_match_long (n : pystr) (kv : pystr * limit_entry) :
  fuzzy_match n kv = true -> 3 < len (fst kv) /\ 3 < len n.
Proof.
  intros H. apply fuzzy_match_spec in H as [[Hl Hc]|[Hl Hc]];
    apply contains_len in Hc; lia.
Qed.

Lemma fuzzy_match_short_name (n : pystr) (kv : pystr * limit_entry) :
  len n <= 3 -> fuzzy_match n kv = false.
Proof.
  intros Hn. destruct (fuzzy_match n kv) eqn:E; [|reflexivity].
  apply fuzzy_match_long in E. lia.
Qed.

Lemma fuzzy_match_short_key (n : pystr) (kv : pystr * limit_entry) :
  len (fst kv) <= 3 -> fuzzy_match n kv = false.
Proof.
  intros Hn. destruct (fuzzy_match n kv) eqn:E; [|reflexivity].
  apply fuzzy_match_long in E. lia.
Qed.

Lemma fuzzy_find_short_name (n : pystr) (limits : limits_dict) :
  len n <= 3 -> fuzzy_find n limits = None.
Proof.
  intros Hn. unfold fuzzy_find.
  induction limits as [|kv l IH]; simpl; [reflexivity|].
  now rewrite fuzzy_match_short_name.
Qed.

(** What [get_limits_for_pdf] returns, by the three ways out of it. *)
Lemma get_limits_for_pdf_cases
    (catalog : pystr -> limits_dict) (et param : pystr) :
  let n := normalize_param_name_for_limits param (Some et) in
  get_limits_for_pdf catalog et param =
  match dict_get n (catalog et) with
  | Some e => limits_of e
  | None =>
      match fuzzy_find n (catalog et) with
      | Some kv => limits_of (snd kv)
      | None => (PyNone, PyNone)
      end
  end.
Proof.
  unfold get_limits_for_pdf. destruct (catalog et) as [|kv l] eqn:E.
  - reflexivity.
  - cbv zeta.
    destruct (dict_get _ (kv :: l)); [reflexivity|].
    destruct (fuzzy_find _ (kv :: l)) as [[k v]|]; reflexivity.
Qed.

(** C2: the lookup returns the entry of an exact match of the normalized
    name whenever there is one; otherwise the entry it returns is the first
    one the containment test accepts, and that test accepts a pair only when
    the contained string is longer than 3 characters (so both strings are);
    hence a normalized name of at most 3 characters without an exact match
    resolves to no limits, a key of at most 3 characters is never accepted
    by containment, and [PH] does not pick the entry of [PHOSPHATE]. *)
Theorem get_limits_exact_then_guarded_fuzzy
    (catalog : pystr -> limits_dict) (et param : pystr) :
  let limits := catalog et in
  let n := normalize_param_name_for_limits param (Some et) in
  (forall e, dict_get n limits = Some e ->
     get_limits_for_pdf catalog et param = limits_of e)
  /\ (dict_get n limits = None ->
      forall key val, fuzzy_find n limits = Some (key, val) ->
        get_limits_for_pdf catalog et param = limits_of val
        /\ In (key, val) limits
        /\ ((3 < len key /\ contains key n = true)
            \/ (3 < len n /\ contains n key = true))
        /\ 3 < len key /\ 3 < len n)
  /\ (dict_get n limits = None -> fuzzy_find n limits = None ->
      get_limits_for_pdf catalog et param = (PyNone, PyNone))
  /\ (dict_get n limits = None -> len n <= 3 ->
      get_limits_for_pdf catalog et param = (PyNone, PyNone))
  /\ (forall key val, len key <= 3 -> fuzzy_match n (key, val) = false)
  /\ (forall val, fuzzy_match (lit "PH") (lit "PHOSPHATE", val) = false).
Proof.
  intros limits n. subst limits.
  pose proof (get_limits_for_pdf_cases catalog et param) as Hc.
  cbv zeta in Hc. fold n in Hc.
  split; [|split; [|split; [|split; [|split]]]].
  - intros e He. now rewrite Hc, He.
  - intros Hd key val Hf.
    pose proof (find_some _ _ Hf) as [Hin Hm].
    split; [now rewrite Hc, Hd, Hf|].
    split; [exact Hin|].
    split; [now apply fuzzy_match_spec in Hm|].
    now apply fuzzy_match_long in Hm.
  - intros Hd Hf. now rewrite Hc, Hd, Hf.
  - intros Hd Hn. rewrite Hc, Hd.
    now rewrite (fuzzy_find_short_name n (catalog et) Hn).
  - intros key val Hk. now apply fuzzy_match_short_key.
  - intros val. apply fuzzy_match_short_name. vm_compute. discriminate.
Qed.

End LimitLookup.

(** The example of the specification: on potable water [pH-Universal (liq)]
    normalizes to [PH] and resolves to the catalog's [PH] entry, and a
    catalog that only knows [PHOSPHATE] gives [PH] no limits. *)
Example get_limits_for_pdf_ph :
  normalize_param_name_for_limits (B := Reference.builtins)
    (lit "pH-Universal (liq)") (Some (lit "POTABLE WATER")) = lit "PH"
  /\ get_limits_for_pdf (B := Reference.builtins)
       (fun _ => [(lit "PHOSPHATE",
                   {| lower_limit := PyInt 20; upper_limit := PyInt 50 |});
                  (lit "PH",
                   {| lower_limit := PyFloat 6.5; upper_limit := PyFloat 8.5 |})])
       (lit "POTABLE WATER") (lit "pH-Universal (liq)")
     = (PyFloat 6.5, PyFloat 8.5)
  /\ get_limits_for_pdf (B := Reference.builtins)
       (fun _ => [(lit "PHOSPHATE",
                   {| lower_limit := PyInt 20; upper_limit := PyInt 50 |})])
       (lit "POTABLE WATER") (lit "pH-Universal (liq)")
     = (PyNone, PyNone).
Proof. repeat split; vm_compute; reflexivity. Qed.

(** ** The alert test of a table row *)

(** The condition under which the specification has a row flagged: both
    bounds are present, the value and both bounds convert to floats, and the
    value lies strictly below the lower or strictly above the upper bound. *)
Definition alert_as_specified `{B : PyBuiltins} (value low high : pyval) : Prop :=
  low <> PyNone /\ high <> PyNone /\
  exists v l h,
    py_float value = Ok v /\ py_float low = Ok l /\ py_float high = Ok h /\
    (PrimFloat.ltb v l = true \/ PrimFloat.ltb h v = true).

Section AlertTest.

Context `{B : PyBuiltins}.

Lemma is_none_false (v : pyval) : is_none v = false <-> v <> PyNone.
Proof. destruct v; simpl; split; congruence. Qed.

(** When the row is flagged, as the code decides it. *)
Lemma is_alert_iff (value low high : pyval) :
  is_alert value low high = true <->
  low <> PyNone /\ high <> PyNone /\
  exists v l,
    py_float value = Ok v /\ py_float low = Ok l /\
    (PrimFloat.ltb v l = true
     \/ exists h, py_float high = Ok h /\ PrimFloat.ltb h v = true).
Proof.
  unfold is_alert. split.
  - destruct (is_none low) eqn:El; [discriminate|].
    destruct (is_none high) eqn:Eh; [discriminate|]. simpl.
    apply is_none_false in El, Eh.
    destruct (py_float value) as [v|] eqn:Ev; [|discriminate].
    destruct (py_float low) as [l|] eqn:Elo; [|discriminate].
    intros H. split; [exact El|]. split; [exact Eh|].
    exists v, l. split; [reflexivity|]. split; [reflexivity|].
    destruct (PrimFloat.ltb v l) eqn:Evl; [now left|].
    destruct (py_float high) as [h|] eqn:Ehi; [|discriminate].
    right. now exists h.
  - intros (Hl & Hh & v & l & Ev & El & Hc).
    apply is_none_false in Hl, Hh. rewrite Hl, Hh, Ev, El. simpl.
    destruct Hc as [Hc|(h & Eh & Hc)].
    + now rewrite Hc.
    + rewrite Eh, Hc. now destruct (PrimFloat.ltb v l).
Qed.

(** The row's status and alert cells follow the test, whatever the record. *)
Lemma row_of_alert (catalog : pystr -> limits_dict) (et : pystr)
    (row_idx : Z) (item : measurement)
    (row : table_row) (cells : list alert_cell) :
  row_of catalog et row_idx item = Ok (row, cells) ->
  let lh := get_limits_for_pdf catalog et (parameter_name item) in
  let alert := is_alert (value_numeric item) (fst lh) (snd lh) in
  cells = (if alert then [(row_idx, 3); (row_idx, 6)] else [])
  /\ nth 6 row [] = (if alert then lit "ALERT" else lit "OK")
  /\ length row = 7%nat.
Proof.
  unfold row_of.
  destruct (get_limits_for_pdf catalog et (parameter_name item)) as [low high].
  destruct (value_display (value_numeric item)) as [s|e]; [|discriminate].
  intros H. injection H as <- <-. simpl. repeat split.
Qed.

(** C10 (as amended): the alert test never raises and always answers; it
    flags the row exactly when both bounds are present, the value and the
    lower bound convert to floats, and either the value is strictly below
    the lower bound or the upper bound converts as well and the value is
    strictly above it. A row that is built carries the Value and Status
    alert cells and the status ALERT when flagged, and no cell and the
    status OK otherwise; when the value or the lower bound does not convert
    the row is not flagged, and when both bounds convert the row is flagged
    exactly under the condition of the specification. *)
Theorem alert_test_characterised
    (catalog : pystr -> limits_dict) (et : pystr)
    (row_idx : Z) (item : measurement) :
  let value := value_numeric item in
  let lh := get_limits_for_pdf catalog et (parameter_name item) in
  let low := fst lh in
  let high := snd lh in
  (is_alert value low high = true <->
     low <> PyNone /\ high <> PyNone /\
     exists v l,
       py_float value = Ok v /\ py_float low = Ok l /\
       (PrimFloat.ltb v l = true
        \/ exists h, py_float high = Ok h /\ PrimFloat.ltb h v = true))
  /\ (forall row cells,
        row_of catalog et row_idx item = Ok (row, cells) ->
        (is_alert value low high = true ->
           cells = [(row_idx, 3); (row_idx, 6)] /\ nth 6 row [] = lit "ALERT")
        /\ (is_alert value low high = false ->
           cells = [] /\ nth 6 row [] = lit "OK"))
  /\ (forall e, py_float value = Raise e -> is_alert value low high = false)
  /\ (forall e, py_float low = Raise e -> is_alert value low high = false)
  /\ (forall l h, py_float low = Ok l -> py_float high = Ok h ->
        (is_alert value low high = true <-> alert_as_specified value low high)).
Proof.
  intros value lh low high.
  split; [apply is_alert_iff|].
  split.
  { intros row cells Hrow. apply row_of_alert in Hrow. cbv zeta in Hrow.
    fold value lh low high in Hrow. destruct Hrow as (Hc & Hs & _).
    split; intros Ha; rewrite Ha in Hc, Hs; now split. }
  split.
  { intros e He. unfold is_alert. rewrite He.
    now destruct (negb (is_none low) && negb (is_none high)). }
  split.
  { intros e He. unfold is_alert. rewrite He.
    destruct (negb (is_none low) && negb (is_none high)); [|reflexivity].
    now destruct (py_float value). }
  intros l h El Eh. rewrite is_alert_iff. unfold alert_as_specified.
  split.
  - intros (Hl & Hh & v & l' & Ev & El' & Hc).
    split; [exact Hl|]. split; [exact Hh|].
    exists v, l, h. rewrite El in El'. injection El' as <-.
    repeat split; try assumption.
    destruct Hc as [Hc|(h' & Eh' & Hc)]; [now left|].
    rewrite Eh in Eh'. injection Eh' as <-. now right.
  - intros (Hl & Hh & v & l' & h' & Ev & El' & Eh' & Hc).
    split; [exact Hl|]. split; [exact Hh|].
    exists v, l'. repeat split; try assumption.
    destruct Hc as [Hc|Hc]; [now left|]. right. now exists h'.
Qed.

End AlertTest.

(** C10, the claim as stated fails: with the value 1.0 below the lower bound
    5.0 the row is flagged although the upper bound, the text [n/a], does
    not convert to a float; [or] never evaluates [float(high)] there. *)
Lemma alert_despite_unconvertible_upper_bound :
  py_float (B := Reference.builtins) (PyStr (lit "n/a")) = Raise ValueError
  /\ ~ (is_alert (B := Reference.builtins)
          (PyFloat 1) (PyFloat 5) (PyStr (lit "n/a")) = true
        <-> alert_as_specified (B := Reference.builtins)
              (PyFloat 1) (PyFloat 5) (PyStr (lit "n/a"))).
Proof.
  split; [reflexivity|].
  intros [H _]. specialize (H eq_refl).
  destruct H as (_ & _ & v & l & h & _ & _ & Hh & _).
  vm_compute in Hh. discriminate.
Qed.

(** ** The rows of the limit table *)

(** The records the row loop does not skip. *)
Definition has_value (item : measurement) : bool :=
  negb (is_none (value_numeric item)).

Section TableRows.

Context `{B : PyBuiltins}.

Lemma rows_from_skips_none (catalog : pystr -> limits_dict) (et : pystr)
    (items : list measurement) :
  forall row_idx,
    rows_from catalog et row_idx items =
    rows_from catalog et row_idx (filter has_value items).
Proof.
  induction items as [|item rest IH]; intros row_idx; [reflexivity|].
  simpl. unfold has_value at 1.
  destruct (is_none (value_numeric item)) eqn:E; simpl.
  - apply IH.
  - rewrite E. destruct (row_of catalog et row_idx item) as [[row cells]|e];
      [|reflexivity].
    now rewrite IH.
Qed.

Lemma rows_from_length (catalog : pystr -> limits_dict) (et : pystr)
    (items : list measurement) :
  forall row_idx rows cells,
    rows_from catalog et row_idx items = Ok (rows, cells) ->
    length rows = length (filter has_value items).
Proof.
  induction items as [|item rest IH]; intros row_idx rows cells H; simpl in H.
  - injection H as <- <-. reflexivity.
  - simpl. unfold has_value at 1.
    destruct (is_none (value_numeric item)) eqn:E; simpl.
    + now apply IH in H.
    + destruct (row_of catalog et row_idx item) as [[row c]|e]; [|discriminate].
      destruct (rows_from catalog et (row_idx + 1) rest) as [[rs cs]|e] eqn:Er;
        [|discriminate].
      injection H as <- <-. simpl. f_equal. now apply IH in Er.
Qed.

Lemma insert_desc_filter_length (p : measurement -> bool)
    (x : measurement) (l : list measurement) :
  length (filter p (insert_desc x l)) = length (filter p (x :: l)).
Proof.
  induction l as [|y l IH]; [reflexivity|].
  simpl insert_desc.
  destruct (PyStr.ltb (measurement_date x) (measurement_date y)).
  - simpl in *. destruct (p y), (p x); simpl in *; lia.
  - reflexivity.
Qed.

Lemma sorted_filter_length (p : measurement -> bool) (data : list measurement) :
  length (filter p (sorted_by_date_desc data)) = length (filter p data).
Proof.
  induction data as [|x l IH]; [reflexivity|].
  unfold sorted_by_date_desc in *. simpl fold_right.
  rewrite insert_desc_filter_length. simpl. destruct (p x); simpl; lia.
Qed.

Lemma insert_desc_in (item y : measurement) (s : list measurement) :
  In item (insert_desc y s) -> item = y \/ In item s.
Proof.
  induction s as [|z s IHs]; simpl.
  - intros [H|[]]; auto.
  - destruct (PyStr.ltb _ _); simpl; intros [H|H]; auto;
      try (apply IHs in H); tauto.
Qed.

Lemma sorted_in (item : measurement) (data : list measurement) :
  In item (sorted_by_date_desc data) -> In item data.
Proof.
  unfold sorted_by_date_desc. induction data as [|x l IH]; simpl; [tauto|].
  intros H. apply insert_desc_in in H as [->|H]; auto.
Qed.

(** Every alert cell points at a row of the table, in the Value or the
    Status column, and stems from a record the alert test flagged. *)
Lemma rows_from_cells (catalog : pystr -> limits_dict) (et : pystr)
    (items : list measurement) :
  forall row_idx rows cells,
    rows_from catalog et row_idx items = Ok (rows, cells) ->
    forall r c, In (r, c) cells ->
      row_idx <= r < row_idx + Z.of_nat (length rows)
      /\ (c = 3 \/ c = 6)
      /\ exists item,
           In item items /\ has_value item = true
           /\ is_alert (value_numeric item)
                (fst (get_limits_for_pdf catalog et (parameter_name item)))
                (snd (get_limits_for_pdf catalog et (parameter_name item)))
              = true.
Proof.
  induction items as [|item rest IH]; intros row_idx rows cells H r c Hin;
    simpl in H.
  - injection H as <- <-. destruct Hin.
  - destruct (is_none (value_numeric item)) eqn:E.
    + destruct (IH _ _ _ H r c Hin) as (Hr & Hc & it & Hit & Hv).
      split; [exact Hr|]. split; [exact Hc|]. exists it. split; [now right|exact Hv].
    + destruct (row_of catalog et row_idx item) as [[row cs]|e] eqn:Erow;
        [|discriminate].
      destruct (rows_from catalog et (row_idx + 1) rest) as [[rs cs']|e] eqn:Er;
        [|discriminate].
      injection H as <- <-.
      apply row_of_alert in Erow. cbv zeta in Erow. destruct Erow as (Hcs & _).
      apply in_app_or in Hin as [Hin|Hin].
      * subst cs.
        destruct (is_alert _ _ _) eqn:Ea; [|destruct Hin].
        assert (r = row_idx /\ (c = 3 \/ c = 6)) as [-> Hc].
        { simpl in Hin. destruct Hin as [Hin|[Hin|[]]];
            injection Hin as <- <-; auto. }
        split; [simpl length; lia|]. split; [exact Hc|].
        exists item. split; [now left|]. split; [|exact Ea].
        unfold has_value. now rewrite E.
      * destruct (IH _ _ _ Er r c Hin) as (Hr & Hc & it & Hit & Hv).
        split; [simpl length; lia|]. split; [exact Hc|].
        exists it. split; [now right|exact Hv].
Qed.

(** C8 (as amended): a record whose value is [None] is skipped: the table
    holds one row per record that has a value and none for the others, and
    such a record adds no alert cell. A record whose value does not convert
    to a float keeps its row, with status OK and no alert cell, and a text
    value is shown as it is. Every alert cell of the table comes from a
    record whose value is present and converts to a float. The placeholder
    "-" is what the scavenge-drain table shows in the Iron or BN cell of a
    row that has no such value, and that cell takes no part in the row's
    alert. *)
Theorem unusable_values_raise_no_alert
    (catalog : pystr -> limits_dict) (et : pystr) (data : list measurement) :
  build_rows catalog et data =
    rows_from catalog et 1 (filter has_value (sorted_by_date_desc data))
  /\ (forall rows cells,
        build_rows catalog et data = Ok (rows, cells) ->
        length rows = length (filter has_value data)
        /\ forall r c, In (r, c) cells ->
             1 <= r <= Z.of_nat (length rows)
             /\ exists item v,
                  In item data /\ value_numeric item <> PyNone
                  /\ py_float (value_numeric item) = Ok v)
  /\ (forall row_idx item e row cells,
        py_float (value_numeric item) = Raise e ->
        row_of catalog et row_idx item = Ok (row, cells) ->
        cells = [] /\ nth 6 row [] = lit "OK"
        /\ forall s, value_numeric item = PyStr s ->
             nth 3 row [] = str_of (PyStr s))
  /\ (forall date unit bn_val iron_limits bn_limits row has_alert,
        scavenge_drain_row date unit None bn_val iron_limits bn_limits
          = Ok (row, has_alert) ->
        nth 2 row [] = lit "-" /\ has_alert = outside bn_val bn_limits)
  /\ (forall date unit iron_val iron_limits bn_limits row has_alert,
        scavenge_drain_row date unit iron_val None iron_limits bn_limits
          = Ok (row, has_alert) ->
        nth 3 row [] = lit "-" /\ has_alert = outside iron_val iron_limits).
Proof.
  split; [apply rows_from_skips_none|].
  split; [|split; [|split]]; cycle 2.
  { intros date unit bn_val iron_limits bn_limits row has_alert.
    unfold scavenge_drain_row. simpl.
    destruct (value_or_dash bn_val); [|discriminate].
    intros [= <- <-]. split; reflexivity. }
  { intros date unit iron_val iron_limits bn_limits row has_alert.
    unfold scavenge_drain_row.
    destruct (value_or_dash iron_val); [|discriminate]. simpl.
    intros [= <- <-]. split; [reflexivity|]. apply orb_false_r. }
  - intros rows cells H. unfold build_rows in H. split.
    + apply rows_from_length in H. now rewrite sorted_filter_length in H.
    + intros r c Hin.
      destruct (rows_from_cells _ _ _ _ _ _ H r c Hin)
        as (Hr & _ & item & Hit & Hv & Ha).
      split; [lia|].
      apply is_alert_iff in Ha as (_ & _ & v & _ & Ev & _).
      exists item, v. split; [|split; [|exact Ev]].
      * now apply sorted_in.
      * unfold has_value in Hv. now destruct (value_numeric item).
  - intros row_idx item e row cells He Hrow.
    pose proof (row_of_alert _ _ _ _ _ _ Hrow) as Hra. cbv zeta in Hra.
    assert (is_alert (value_numeric item)
              (fst (get_limits_for_pdf catalog et (parameter_name item)))
              (snd (get_limits_for_pdf catalog et (parameter_name item)))
            = false) as Ha.
    { unfold is_alert. rewrite He. now destruct (_ && _). }
    rewrite Ha in Hra. destruct Hra as (Hc & Hs & _).
    split; [exact Hc|]. split; [exact Hs|].
    intros s Es. unfold row_of in Hrow.
    destruct (get_limits_for_pdf catalog et (parameter_name item)) as [lo hi].
    simpl in Ha. rewrite Ha, Es in Hrow. simpl in Hrow.
    injection Hrow as <- _. reflexivity.
Qed.

End TableRows.

(** ** Limit validity *)

Section LimitValidity.

Context `{B : PyBuiltins}.

(** [is_valid_limit] accepts a pair only when both bounds convert to floats,
    neither is below zero and the upper one is not below the lower one. *)
Lemma is_valid_limit_sound (ideal_low ideal_high : pyval) :
  is_valid_limit ideal_low ideal_high = Ok true ->
  exists low high,
    py_float ideal_low = Ok low /\ py_float ideal_high = Ok high
    /\ PrimFloat.ltb low 0 = false /\ PrimFloat.ltb high 0 = false
    /\ PrimFloat.ltb high low = false.
Proof.
  unfold is_valid_limit.
  destruct (is_none ideal_low || is_none ideal_high); [discriminate|].
  destruct (py_float ideal_low) as [low|[]]; try discriminate.
  destruct (py_float ideal_high) as [high|[]]; try discriminate.
  destruct (PrimFloat.ltb low 0) eqn:E1; [discriminate|].
  destruct (PrimFloat.ltb high 0) eqn:E2; [discriminate|].
  destruct (PrimFloat.ltb high low) eqn:E3; [discriminate|].
  intros _. now exists low, high.
Qed.

(** A bound below zero: the pair is not valid and a chart draws no limit
    line. *)
Lemma negative_bound_draws_no_limit_line (ideal_low ideal_high : pyval)
    (low high : float) :
  py_float ideal_low = Ok low -> py_float ideal_high = Ok high ->
  PrimFloat.ltb low 0 = true \/ PrimFloat.ltb high 0 = true ->
  is_valid_limit ideal_low ideal_high = Ok false
  /\ limit_lines ideal_low ideal_high = Ok [].
Proof.
  intros El Eh Hneg.
  assert (is_valid_limit ideal_low ideal_high = Ok false) as Hv.
  { unfold is_valid_limit. rewrite El, Eh.
    destruct (is_none ideal_low || is_none ideal_high); [reflexivity|].
    destruct Hneg as [-> | ->]; [reflexivity|].
    now rewrite orb_true_r. }
  split; [exact Hv|]. unfold limit_lines. now rewrite Hv.
Qed.

End LimitValidity.

(** A potable-water pH reading of 5.0. *)
Definition ph_reading : measurement :=
  {| measurement_date := lit "2024-03-05T08:30:00";
     unit_id := lit "PW1";
     parameter_name := lit "pH-Universal (liq)";
     value_numeric := PyFloat 5;
     unit_of_measure := Some (lit "pH") |}.

(** A catalog whose [PH] entry holds the sentinel -1 for both bounds. *)
Definition sentinel_catalog (equipment_type : pystr) : limits_dict :=
  [ (lit "PH", {| lower_limit := PyFloat (-1); upper_limit := PyFloat (-1) |}) ].

(** The styles of the tables on a canvas, in drawing order. *)
Definition styles_drawn (ops : list canvas_op) : list (list style_command) :=
  flat_map (fun op => match op with
                      | DrawTable _ _ style => [style]
                      | _ => []
                      end) ops.

(** C1, the failing input: for the sentinel pair (-1, -1) [is_valid_limit]
    answers false and a chart draws no limit line, yet the limit table,
    which never consults it, flags the reading 5.0 (5.0 > -1.0): the row
    gets its two alert cells and the status ALERT, and the table drawn
    carries the highlight commands of both cells. *)
Theorem sentinel_limits_flag_the_table_row :
  is_valid_limit (B := Reference.builtins) (PyFloat (-1)) (PyFloat (-1))
    = Ok false
  /\ limit_lines (B := Reference.builtins) (PyFloat (-1)) (PyFloat (-1)) = Ok []
  /\ get_limits_for_pdf (B := Reference.builtins) sentinel_catalog
       (lit "POTABLE WATER") (parameter_name ph_reading)
     = (PyFloat (-1), PyFloat (-1))
  /\ build_rows (B := Reference.builtins) sentinel_catalog
       (lit "POTABLE WATER") [ph_reading]
     = Ok ([[lit "2024-03-05"; lit "PW1"; lit "pH-Universal (liq)";
             lit "5.0*"; lit "pH"; lit "-1.0--1.0"; lit "ALERT"]],
           [(1, 3); (1, 6)])
  /\ exists st,
       add_data_table_with_limits (B := Reference.builtins) sentinel_catalog
         [ph_reading] (lit "POTABLE WATER") None false
         (start_content_page (Some (lit "Potable Water")) false initial_state)
       = Done st
       /\ styles_drawn (canvas st)
          = [base_style_commands ++ highlight_commands 3 1
               ++ highlight_commands 6 1].
Proof.
  split; [reflexivity|]. split; [reflexivity|]. split; [reflexivity|].
  split; [vm_compute; reflexivity|].
  eexists. split; vm_compute; reflexivity.
Qed.

(** A record without a value, and one whose value is a text that is no
    number. *)
Definition null_reading : measurement :=
  {| measurement_date := lit "2024-03-06T08:30:00";
     unit_id := lit "PW1";
     parameter_name := lit "pH-Universal (liq)";
     value_numeric := PyNone;
     unit_of_measure := Some (lit "pH") |}.

Definition text_reading : measurement :=
  {| measurement_date := lit "2024-03-07T08:30:00";
     unit_id := lit "PW1";
     parameter_name := lit "pH-Universal (liq)";
     value_numeric := PyStr (lit "n/a");
     unit_of_measure := Some (lit "pH") |}.

(** C8, the claim as stated fails: the record without a value gets no row at
    all, so nothing shows a placeholder for it, and the record with the text
    value gets a row that shows the text, not the placeholder. *)
Lemma unusable_values_show_no_placeholder :
  build_rows (B := Reference.builtins) sentinel_catalog (lit "POTABLE WATER")
    [null_reading] = Ok ([], [])
  /\ build_rows (B := Reference.builtins) sentinel_catalog (lit "POTABLE WATER")
       [text_reading]
     = Ok ([[lit "2024-03-07"; lit "PW1"; lit "pH-Universal (liq)";
             lit "n/a"; lit "pH"; lit "-1.0--1.0"; lit "OK"]], []).
Proof. split; vm_compute; reflexivity. Qed.

(** ** Pagination of the limit table *)

(** [ceil(n / p)] *)
Definition ceil_div (n p : nat) : nat := (n + p - 1) / p.

(** The tables on a canvas, in drawing order: the rows below the header row
    and the style. *)
Definition tables_drawn (ops : list canvas_op)
  : list (list table_row * list style_command) :=
  flat_map (fun op => match op with
                      | DrawTable _ table_data style => [(tl table_data, style)]
                      | _ => []
                      end) ops.

(** The number of [showPage] calls on a canvas. *)
Definition pages_shown (ops : list canvas_op) : nat :=
  length (filter (fun op => match op with ShowPage => true | _ => false end) ops).

Section Pagination.

Context `{B : PyBuiltins}.

Local Open Scope nat_scope.

Lemma lt_ceil_div (n p k : nat) :
  0 < p -> (k * p < n <-> k < ceil_div n p).
Proof.
  intros Hp. unfold ceil_div. split; intros H.
  - apply Nat.div_le_lower_bound; lia.
  - destruct (Nat.lt_ge_cases (k * p) n) as [Hlt|Hge]; [exact Hlt|].
    exfalso. assert ((n + p - 1) / p < S k); [|lia].
    apply Nat.Div0.div_lt_upper_bound; lia.
Qed.

Lemma slice_length {A : Type} (a b : nat) (l : list A) :
  length (slice a b l) = Nat.min (b - a) (length l - a).
Proof. unfold slice. now rewrite length_firstn, length_skipn. Qed.

Lemma page_rows_of_length (p : nat) (rows : list table_row) (k : nat) :
  length (page_rows_of p rows k) = Nat.min p (length rows - k * p).
Proof. unfold page_rows_of. rewrite slice_length. lia. Qed.

Lemma page_rows_of_firstn (p : nat) (rows : list table_row) (k : nat) :
  page_rows_of p rows k = firstn p (skipn (k * p) rows).
Proof.
  unfold page_rows_of, slice.
  destruct (Nat.le_ge_cases (k * p + p) (length rows)) as [H|H].
  - f_equal. lia.
  - rewrite Nat.min_r by exact H.
    rewrite !firstn_all2; try reflexivity; rewrite length_skipn; lia.
Qed.

(** The pages from page [k] on, put end to end, are the rows from
    [k * p] on. *)
Lemma pages_concat_from (p : nat) (rows : list table_row) :
  0 < p ->
  forall m k, m = ceil_div (length rows) p - k ->
    concat (map (page_rows_of p rows) (seq k m)) = skipn (k * p) rows.
Proof.
  intros Hp. induction m as [|m IH]; intros k Hm; simpl.
  - symmetry. apply skipn_all2.
    destruct (Nat.le_gt_cases (length rows) (k * p)) as [H|H]; [exact H|].
    apply (lt_ceil_div _ p k Hp) in H. lia.
  - rewrite (IH (S k)) by lia.
    rewrite page_rows_of_firstn.
    replace (S k * p) with (p + k * p) by lia.
    rewrite <- skipn_skipn. apply firstn_skipn.
Qed.

Lemma tables_drawn_app (a b : list canvas_op) :
  tables_drawn (a ++ b) = tables_drawn a ++ tables_drawn b.
Proof. unfold tables_drawn. apply flat_map_app. Qed.

Lemma pages_shown_app (a b : list canvas_op) :
  pages_shown (a ++ b) = pages_shown a + pages_shown b.
Proof. unfold pages_shown. now rewrite filter_app, length_app. Qed.

Lemma continuation_page_tables (st : pdf_state) :
  tables_drawn (canvas (continuation_page st)) = tables_drawn (canvas st).
Proof.
  unfold continuation_page, start_content_page. simpl.
  rewrite <- app_assoc, tables_drawn_app. simpl. apply app_nil_r.
Qed.

Lemma add_subsection_tables (t : pystr) (st : pdf_state) :
  tables_drawn (canvas (add_subsection t st)) = tables_drawn (canvas st).
Proof.
  unfold add_subsection. simpl. rewrite tables_drawn_app. simpl.
  rewrite app_nil_r. destruct (y_position st <? 180)%Z; [|reflexivity].
  apply continuation_page_tables.
Qed.

Lemma render_page_tables (p : nat) (title : option pystr)
    (rows : list table_row) (cells : list alert_cell) (k : nat)
    (st : pdf_state) :
  tables_drawn (canvas (render_page p title rows cells k st)) =
  tables_drawn (canvas st) ++ [(page_rows_of p rows k, page_style p rows cells k)].
Proof.
  unfold render_page. simpl. rewrite tables_drawn_app. simpl. f_equal.
  destruct (0 <? k); [|reflexivity].
  destruct title as [[|c t]|]; try apply continuation_page_tables.
  rewrite add_subsection_tables. apply continuation_page_tables.
Qed.

(** With one turn of fuel per remaining row the loop ends, having drawn
    exactly the pages from [k] to the last, in order. *)
Lemma table_pages_run (p : nat) (title : option pystr)
    (rows : list table_row) (cells : list alert_cell) :
  0 < p ->
  forall fuel k st,
    length rows - k * p <= fuel ->
    exists st',
      table_pages fuel p title rows cells k st = Some st'
      /\ tables_drawn (canvas st') =
         tables_drawn (canvas st) ++
         map (fun j => (page_rows_of p rows j, page_style p rows cells j))
             (seq k (ceil_div (length rows) p - k)).
Proof.
  intros Hp. induction fuel as [|fuel IH]; intros k st Hf.
  - simpl. destruct (k * p <? length rows) eqn:E.
    + apply Nat.ltb_lt in E. lia.
    + apply Nat.ltb_ge in E. exists st. split; [reflexivity|].
      replace (ceil_div (length rows) p - k) with 0.
      * simpl. now rewrite app_nil_r.
      * destruct (Nat.le_gt_cases (ceil_div (length rows) p) k) as [H|H];
          [lia|]. apply (lt_ceil_div _ p k Hp) in H. lia.
  - simpl. destruct (k * p <? length rows) eqn:E.
    + apply Nat.ltb_lt in E.
      destruct (IH (S k) (render_page p title rows cells k st)) as (st' & Hrun & Ht).
      { simpl. lia. }
      exists st'. split; [exact Hrun|].
      rewrite Ht, render_page_tables, <- app_assoc. f_equal.
      pose proof (proj1 (lt_ceil_div _ p k Hp) E) as Hk.
      replace (ceil_div (length rows) p - k)
        with (S (ceil_div (length rows) p - S k)) by lia.
      reflexivity.
    + apply Nat.ltb_ge in E. exists st. split; [reflexivity|].
      replace (ceil_div (length rows) p - k) with 0.
      * simpl. now rewrite app_nil_r.
      * destruct (Nat.le_gt_cases (ceil_div (length rows) p) k) as [H|H];
          [lia|]. apply (lt_ceil_div _ p k Hp) in H. lia.
Qed.

Lemma flush_grid_canvas (st st1 : pdf_state) :
  flush_grid st = Ok st1 -> canvas st1 = canvas st.
Proof.
  unfold flush_grid. destruct (0 <? grid_position st)%Z.
  - destruct (grid_row_y st); [|discriminate]. now intros [= <-].
  - now intros [= <-].
Qed.

Lemma add_legend_tables (cells : list alert_cell) (st : pdf_state) :
  tables_drawn (canvas (add_legend cells st)) = tables_drawn (canvas st).
Proof.
  destruct cells; [reflexivity|]. simpl. rewrite tables_drawn_app. simpl.
  apply app_nil_r.
Qed.

(** A call that derives at least one row returns, and the tables it draws
    are the pages of the rows, each with its style, in order. *)
Lemma add_data_table_draws_pages (p : nat)
    (catalog : pystr -> limits_dict) (data : list measurement) (et : pystr)
    (title : option pystr) (new_page : bool) (st st1 : pdf_state)
    (rows : list table_row) (cells : list alert_cell) :
  0 < p ->
  flush_grid st = Ok st1 ->
  build_rows catalog et data = Ok (rows, cells) ->
  rows <> [] ->
  exists st',
    add_data_table_with_limits_at p catalog data et title new_page st = Done st'
    /\ tables_drawn (canvas st') =
       tables_drawn (canvas st) ++
       map (fun j => (page_rows_of p rows j, page_style p rows cells j))
           (seq 0 (ceil_div (length rows) p)).
Proof.
  intros Hp Hflush Hrows Hne.
  unfold add_data_table_with_limits_at.
  destruct data as [|item data'].
  { injection Hrows as <- _. now destruct Hne. }
  rewrite Hflush, Hrows.
  destruct rows as [|row rows']; [now destruct Hne|].
  set (st2 := if new_page then continuation_page st1 else st1).
  set (st3 := match title with
              | Some ((_ :: _) as t) => add_subsection t st2
              | _ => st2
              end).
  assert (tables_drawn (canvas st3) = tables_drawn (canvas st)) as H3.
  { assert (tables_drawn (canvas st2) = tables_drawn (canvas st)) as H2.
    { subst st2. rewrite <- (flush_grid_canvas _ _ Hflush).
      destruct new_page; [apply continuation_page_tables|reflexivity]. }
    subst st3. destruct title as [[|ch t]|]; try exact H2.
    now rewrite add_subsection_tables. }
  destruct (table_pages_run p title (row :: rows') cells Hp
              (length (row :: rows')) 0 st3) as (st4 & Hrun & Ht); [lia|].
  rewrite Hrun. eexists. split; [reflexivity|].
  rewrite add_legend_tables, Ht, H3, Nat.sub_0_r. reflexivity.
Qed.

(** C3: for a positive page size [p], a call that derives [N >= 1] rows
    returns and draws exactly [ceil(N / p)] tables; table [k] holds the
    slice [rows[k*p : min((k+1)*p, N)]], and the tables' rows put end to end
    are the rows. With page size 20, 45 rows make the three pages of 20, 20
    and 5 rows. *)
Theorem table_pages_partition_rows (p : nat)
    (catalog : pystr -> limits_dict) (data : list measurement) (et : pystr)
    (title : option pystr) (new_page : bool) (st st1 : pdf_state)
    (rows : list table_row) (cells : list alert_cell) :
  0 < p ->
  flush_grid st = Ok st1 ->
  build_rows catalog et data = Ok (rows, cells) ->
  rows <> [] ->
  let n := length rows in
  let pages := map (page_rows_of p rows) (seq 0 (ceil_div n p)) in
  (exists st',
     add_data_table_with_limits_at p catalog data et title new_page st = Done st'
     /\ map fst (tables_drawn (canvas st')) =
        map fst (tables_drawn (canvas st)) ++ pages)
  /\ length pages = ceil_div n p
  /\ (forall k, k < ceil_div n p ->
        nth k pages [] = slice (k * p) (Nat.min ((k + 1) * p) n) rows)
  /\ concat pages = rows
  /\ (forall rows45 : list table_row, length rows45 = 45 ->
        ceil_div 45 20 = 3
        /\ map (@length table_row)
             (map (page_rows_of 20 rows45) (seq 0 (ceil_div 45 20)))
           = [20; 20; 5]).
Proof.
  intros Hp Hflush Hrows Hne n pages.
  split; [|split; [|split; [|split]]].
  - destruct (add_data_table_draws_pages p catalog data et title new_page
                st st1 rows cells Hp Hflush Hrows Hne) as (st' & Hrun & Ht).
    exists st'. split; [exact Hrun|].
    rewrite Ht, map_app, map_map. reflexivity.
  - subst pages. now rewrite length_map, length_seq.
  - intros k Hk. subst pages.
    rewrite (nth_indep _ [] (page_rows_of p rows 0))
      by now rewrite length_map, length_seq.
    rewrite (map_nth (page_rows_of p rows) _ 0 k), seq_nth by exact Hk.
    unfold page_rows_of. fold n. do 2 f_equal. lia.
  - subst pages n.
    rewrite (pages_concat_from p rows Hp (ceil_div (length rows) p) 0) by lia.
    reflexivity.
  - intros rows45 H45. split; [reflexivity|].
    change (ceil_div 45 20) with 3. simpl.
    rewrite !page_rows_of_length, H45. reflexivity.
Qed.

(** The page of the 1-based row [r]: page [(r - 1) // p]. *)
Definition home_page (p : nat) (r : Z) : nat :=
  Z.to_nat ((r - 1) / Z.of_nat p).

Lemma home_page_bounds (p : nat) (r : Z) :
  0 < p -> (1 <= r)%Z ->
  (Z.of_nat (home_page p r * p) <= r - 1
   < Z.of_nat (home_page p r * p) + Z.of_nat p)%Z.
Proof.
  intros Hp Hr. unfold home_page.
  assert (0 < Z.of_nat p)%Z as Hp' by lia.
  assert (0 <= (r - 1) / Z.of_nat p)%Z as Hq by (apply Z.div_pos; lia).
  rewrite Nat2Z.inj_mul, Z2Nat.id by exact Hq.
  pose proof (Z.mul_div_le (r - 1) (Z.of_nat p) Hp').
  pose proof (Z.mul_succ_div_gt (r - 1) (Z.of_nat p) Hp').
  lia.
Qed.

(** On its home page the cell is highlighted at its page-local row. *)
Lemma remap_alert_home (p n : nat) (r c : Z) :
  0 < p -> (1 <= r <= Z.of_nat n)%Z ->
  let k := home_page p r in
  let local := (r - Z.of_nat (k * p))%Z in
  k * p < n
  /\ (1 <= local <= Z.of_nat (Nat.min p (n - k * p)))%Z
  /\ remap_alert (k * p) (Nat.min p (n - k * p)) (r, c)
     = highlight_commands c local.
Proof.
  intros Hp Hr k local.
  pose proof (home_page_bounds p r Hp (proj1 Hr)) as Hb. fold k in Hb.
  assert (k * p < n) as Hk by lia.
  assert (1 <= local <= Z.of_nat (Nat.min p (n - k * p)))%Z as Hl
    by (subst local; lia).
  split; [exact Hk|]. split; [exact Hl|].
  unfold remap_alert. fold local.
  destruct Hl as [H1 H2].
  apply Z.leb_le in H1, H2. now rewrite H1, H2.
Qed.

(** On every other page the cell is dropped. *)
Lemma remap_alert_elsewhere (p n : nat) (r c : Z) (j : nat) :
  0 < p -> (1 <= r)%Z -> j <> home_page p r ->
  remap_alert (j * p) (Nat.min p (n - j * p)) (r, c) = [].
Proof.
  intros Hp Hr Hj.
  pose proof (home_page_bounds p r Hp Hr) as Hb.
  set (k := home_page p r) in *.
  unfold remap_alert.
  destruct (Nat.lt_ge_cases j k) as [Hlt|Hge].
  - assert (j * p + p <= k * p) as Hm.
    { replace (j * p + p) with (S j * p) by lia.
      apply Nat.mul_le_mono_r. lia. }
    replace ((r - Z.of_nat (j * p) <=? Z.of_nat (Nat.min p (n - j * p)))%Z)
      with false; [now rewrite andb_false_r|].
    symmetry. apply Z.leb_gt. lia.
  - assert (k * p + p <= j * p) as Hm.
    { replace (k * p + p) with (S k * p) by lia.
      apply Nat.mul_le_mono_r. lia. }
    replace ((1 <=? r - Z.of_nat (j * p))%Z) with false; [reflexivity|].
    symmetry. apply Z.leb_gt. lia.
Qed.

(** C4: an alert cell the row loop recorded at the global row [r] lies
    within the rows; after the split into pages of [p] rows its remapped
    row [r - start_idx] falls within [1, len(page_rows)] on exactly one of
    the pages drawn, page [(r - 1) // p], whose style carries the cell's
    highlight commands at that local row; on every other page the cell is
    dropped and adds no command. *)
Theorem alert_cell_lands_on_one_page (p : nat)
    (catalog : pystr -> limits_dict) (data : list measurement) (et : pystr)
    (title : option pystr) (new_page : bool) (st st1 : pdf_state)
    (rows : list table_row) (cells : list alert_cell) (r c : Z) :
  0 < p ->
  flush_grid st = Ok st1 ->
  build_rows catalog et data = Ok (rows, cells) ->
  In (r, c) cells ->
  let n := length rows in
  let k := home_page p r in
  let local := (r - Z.of_nat (k * p))%Z in
  (exists st',
     add_data_table_with_limits_at p catalog data et title new_page st = Done st'
     /\ tables_drawn (canvas st') =
        tables_drawn (canvas st) ++
        map (fun j => (page_rows_of p rows j, page_style p rows cells j))
            (seq 0 (ceil_div n p)))
  /\ (1 <= r <= Z.of_nat n)%Z
  /\ k < ceil_div n p
  /\ (1 <= local <= Z.of_nat (length (page_rows_of p rows k)))%Z
  /\ remap_alert (k * p) (length (page_rows_of p rows k)) (r, c)
     = highlight_commands c local
  /\ incl (highlight_commands c local) (page_style p rows cells k)
  /\ (forall j, j <> k ->
        remap_alert (j * p) (length (page_rows_of p rows j)) (r, c) = []).
Proof.
  intros Hp Hflush Hrows Hin n k local.
  assert (1 <= r <= Z.of_nat n)%Z as Hr.
  { unfold build_rows in Hrows.
    destruct (rows_from_cells _ _ _ _ _ _ Hrows r c Hin) as (H & _). lia. }
  assert (rows <> []) as Hne.
  { intros ->. simpl in Hr. lia. }
  destruct (remap_alert_home p n r c Hp Hr) as (Hk & Hl & Hm).
  fold k local in Hk, Hl, Hm.
  split; [now apply (add_data_table_draws_pages p catalog data et title
                       new_page st st1)|].
  split; [exact Hr|].
  split; [now apply lt_ceil_div|].
  rewrite !page_rows_of_length. fold n.
  split; [exact Hl|]. split; [exact Hm|]. split.
  - unfold page_style. rewrite page_rows_of_length. fold n.
    intros cmd Hcmd. apply in_or_app. right.
    apply in_flat_map. exists (r, c). split; [exact Hin|].
    now rewrite Hm.
  - intros j Hj. rewrite page_rows_of_length.
    apply remap_alert_elsewhere; [exact Hp|lia|exact Hj].
Qed.

End Pagination.

(** Three potable-water pH readings and a catalog with the pH range
    6.5 to 8.5; by date the reading of 9.0 is the oldest. *)
Definition ph_reading_on (date : pystr) (value : float) : measurement :=
  {| measurement_date := date;
     unit_id := lit "PW1";
     parameter_name := lit "pH-Universal (liq)";
     value_numeric := PyFloat value;
     unit_of_measure := Some (lit "pH") |}.

Definition sample_data : list measurement :=
  [ ph_reading_on (lit "2024-03-05T08:30:00") 7;
    ph_reading_on (lit "2024-03-06T08:30:00") 7.5;
    ph_reading_on (lit "2024-03-04T08:30:00") 9 ].

Definition ph_catalog (equipment_type : pystr) : limits_dict :=
  [ (lit "PH", {| lower_limit := PyFloat 6.5; upper_limit := PyFloat 8.5 |}) ].

Definition sample_rows : list table_row :=
  [ [lit "2024-03-06"; lit "PW1"; lit "pH-Universal (liq)"; lit "7.5";
     lit "pH"; lit "6.5-8.5"; lit "OK"];
    [lit "2024-03-05"; lit "PW1"; lit "pH-Universal (liq)"; lit "7.0";
     lit "pH"; lit "6.5-8.5"; lit "OK"];
    [lit "2024-03-04"; lit "PW1"; lit "pH-Universal (liq)"; lit "9.0*";
     lit "pH"; lit "6.5-8.5"; lit "ALERT"] ].

Definition sample_state : pdf_state :=
  start_content_page (Some (lit "Potable Water")) false initial_state.

(** The sample rows on pages of two rows: two pages, of two rows and of
    one. *)
Lemma table_pages_partition_rows_witness :
  (0 < 2)%nat
  /\ flush_grid sample_state = Ok sample_state
  /\ build_rows (B := Reference.builtins) ph_catalog (lit "POTABLE WATER")
       sample_data = Ok (sample_rows, [(3, 3); (3, 6)])
  /\ sample_rows <> []
  /\ concat (map (page_rows_of 2 sample_rows) (seq 0 (ceil_div 3 2)))
     = sample_rows.
Proof.
  assert (0 < 2)%nat as H0 by (apply Nat.lt_0_succ).
  assert (flush_grid sample_state = Ok sample_state) as H1 by reflexivity.
  assert (build_rows (B := Reference.builtins) ph_catalog
            (lit "POTABLE WATER") sample_data
          = Ok (sample_rows, [(3, 3); (3, 6)])) as H2
    by (vm_compute; reflexivity).
  assert (sample_rows <> []) as H3 by discriminate.
  repeat (split; [assumption|]).
  exact (proj1 (proj2 (proj2 (proj2
    (table_pages_partition_rows (B := Reference.builtins) 2 ph_catalog
       sample_data (lit "POTABLE WATER") None false sample_state sample_state
       sample_rows [(3, 3); (3, 6)] H0 H1 H2 H3))))).
Defined.

(** The alert of the third sample row, on pages of two rows: it lands on
    the second page, at local row 1. *)
Lemma alert_cell_lands_on_one_page_witness :
  (0 < 2)%nat
  /\ flush_grid sample_state = Ok sample_state
  /\ build_rows (B := Reference.builtins) ph_catalog (lit "POTABLE WATER")
       sample_data = Ok (sample_rows, [(3, 3); (3, 6)])
  /\ In (3, 3) [(3, 3); (3, 6)]
  /\ remap_alert (1 * 2) (length (page_rows_of 2 sample_rows 1)) (3, 3)
     = highlight_commands 3 1.
Proof.
  assert (0 < 2)%nat as H0 by (apply Nat.lt_0_succ).
  assert (flush_grid sample_state = Ok sample_state) as H1 by reflexivity.
  assert (build_rows (B := Reference.builtins) ph_catalog
            (lit "POTABLE WATER") sample_data
          = Ok (sample_rows, [(3, 3); (3, 6)])) as H2
    by (vm_compute; reflexivity).
  assert (In (3, 3) [(3, 3); (3, 6)]) as H3 by (left; reflexivity).
  repeat (split; [assumption|]).
  exact (proj1 (proj2 (proj2 (proj2 (proj2
    (alert_cell_lands_on_one_page (B := Reference.builtins) 2 ph_catalog
       sample_data (lit "POTABLE WATER") None false sample_state sample_state
       sample_rows [(3, 3); (3, 6)] 3 3 H0 H1 H2 H3)))))).
Defined.

(** The example of the specification: with pages of 20 rows, an alert on
    the global row 41 of 45 rows lands on the third page at local row 1 and
    on neither of the first two. *)
Example alert_on_row_41 (c : Z) :
  home_page 20 41 = 2%nat
  /\ remap_alert (2 * 20) (Nat.min 20 (45 - 2 * 20)) (41, c)
     = highlight_commands c 1
  /\ remap_alert (0 * 20) (Nat.min 20 (45 - 0 * 20)) (41, c) = []
  /\ remap_alert (1 * 20) (Nat.min 20 (45 - 1 * 20)) (41, c) = [].
Proof. repeat split. Qed.

(** ** The chart grid *)

(** A caller's run of [add_chart] calls, one per chart. *)
Fixpoint add_charts (charts : list (option image)) (st : pdf_state)
  : result pdf_state :=
  match charts with
  | [] => Ok st
  | chart :: rest =>
      match add_chart chart st with
      | Raise e => Raise e
      | Ok (_, st') => add_charts rest st'
      end
  end.

(** The state after a grid chart that does not complete the grid. *)
Definition placed (img : image) (x y : Z) (slot : Z) (row_y : Z)
    (st : pdf_state) : pdf_state :=
  {| y_position := y_position st;
     grid_position := slot;
     grid_row_y := Some row_y;
     section_page := section_page st;
     current_section := current_section st;
     canvas := canvas st ++
               [DrawImage img x y grid_chart_width grid_chart_height] |}.

Lemma add_chart_slot_0 (st : pdf_state) (img : image) :
  grid_position st = 0 ->
  bottom_margin <= y_position st - grid_chart_height ->
  add_chart (Some img) st =
  Ok (true, placed img margin_left (y_position st - grid_chart_height) 1
              (y_position st) st).
Proof.
  intros Hg Hy. destruct st as [y g ry sp cs cv]. simpl in *. subst g.
  unfold add_chart. simpl.
  replace (y - grid_chart_height <? bottom_margin) with false
    by (symmetry; apply Z.ltb_ge; exact Hy).
  reflexivity.
Qed.

Lemma add_chart_slot_1 (st : pdf_state) (img : image) (row_y : Z) :
  grid_position st = 1 -> grid_row_y st = Some row_y ->
  add_chart (Some img) st =
  Ok (true, placed img (margin_left + grid_chart_width + h_gap)
              (row_y - grid_chart_height) 2 row_y st).
Proof.
  intros Hg Hr. destruct st as [y g ry sp cs cv]. simpl in *. subst g ry.
  reflexivity.
Qed.

Lemma add_chart_slot_2 (st : pdf_state) (img : image) (row_y : Z) :
  grid_position st = 2 -> grid_row_y st = Some row_y ->
  add_chart (Some img) st =
  Ok (true, placed img margin_left
              (row_y - grid_chart_height * 2 - v_gap) 3 row_y st).
Proof.
  intros Hg Hr. destruct st as [y g ry sp cs cv]. simpl in *. subst g ry.
  reflexivity.
Qed.

(** The fourth chart completes the grid: the slot returns to 0 and the
    cursor moves below the grid. *)
Lemma add_chart_slot_3 (st : pdf_state) (img : image) (row_y : Z) :
  grid_position st = 3 -> grid_row_y st = Some row_y ->
  add_chart (Some img) st =
  Ok (true,
      set_y (row_y - grid_chart_height * 2 - v_gap - v_gap)
        (placed img (margin_left + grid_chart_width + h_gap)
           (row_y - grid_chart_height * 2 - v_gap) 0 row_y st)).
Proof.
  intros Hg Hr. destruct st as [y g ry sp cs cv]. simpl in *. subst g ry.
  reflexivity.
Qed.

(** C6 (as amended): from grid slot 0 at the row top [Y], with room for one
    chart row above the bottom threshold (so that no page break comes in
    between), four placements draw the four charts of the 2x2 grid, show no
    page, return the slot to 0 and leave the cursor at [Y] minus two chart
    heights and twice the gap: the gap between the two rows and the gap
    below the grid. *)
Theorem four_charts_wrap_grid (st : pdf_state) (a b c d : image) :
  grid_position st = 0 ->
  bottom_margin <= y_position st - grid_chart_height ->
  exists st',
    add_charts [Some a; Some b; Some c; Some d] st = Ok st'
    /\ grid_position st' = 0
    /\ y_position st' = y_position st - (2 * grid_chart_height + 2 * v_gap)
    /\ canvas st' =
       canvas st ++
       [ DrawImage a margin_left (y_position st - grid_chart_height)
           grid_chart_width grid_chart_height;
         DrawImage b (margin_left + grid_chart_width + h_gap)
           (y_position st - grid_chart_height)
           grid_chart_width grid_chart_height;
         DrawImage c margin_left
           (y_position st - grid_chart_height * 2 - v_gap)
           grid_chart_width grid_chart_height;
         DrawImage d (margin_left + grid_chart_width + h_gap)
           (y_position st - grid_chart_height * 2 - v_gap)
           grid_chart_width grid_chart_height ]
    /\ pages_shown (canvas st') = pages_shown (canvas st).
Proof.
  intros Hg Hy. unfold add_charts.
  rewrite (add_chart_slot_0 st a Hg Hy).
  rewrite add_chart_slot_1 with (row_y := y_position st) by reflexivity.
  rewrite add_chart_slot_2 with (row_y := y_position st) by reflexivity.
  rewrite add_chart_slot_3 with (row_y := y_position st) by reflexivity.
  eexists. split; [reflexivity|].
  split; [reflexivity|].
  split; [simpl; unfold grid_chart_height, v_gap; lia|].
  split.
  - simpl. rewrite <- !app_assoc. reflexivity.
  - simpl. rewrite <- !app_assoc. unfold pages_shown.
    rewrite filter_app, length_app. simpl. lia.
Qed.

(** Four charts from the top of a fresh section page. *)
Lemma four_charts_wrap_grid_witness :
  grid_position sample_state = 0
  /\ bottom_margin <= y_position sample_state - grid_chart_height
  /\ exists st',
       add_charts [Some 1; Some 2; Some 3; Some 4]%N sample_state = Ok st'
       /\ grid_position st' = 0
       /\ y_position st' = 652 - (2 * 245 + 2 * 15).
Proof.
  assert (grid_position sample_state = 0) as H0 by reflexivity.
  assert (bottom_margin <= y_position sample_state - grid_chart_height) as H1
    by (vm_compute; discriminate).
  split; [exact H0|]. split; [exact H1|].
  destruct (four_charts_wrap_grid sample_state 1%N 2%N 3%N 4%N H0 H1)
    as (st' & Hrun & Hg & Hy & _).
  exists st'. split; [exact Hrun|]. split; [exact Hg|exact Hy].
Defined.

(** C6, the claim as stated fails: four charts from the top of a fresh page
    (row top 652, no page break) return the slot to 0 and move the cursor
    by 520, which is not two chart heights plus one gap (505). *)
Lemma four_charts_advance_two_gaps :
  exists st',
    add_charts [Some 1; Some 2; Some 3; Some 4]%N sample_state = Ok st'
    /\ grid_position st' = 0
    /\ pages_shown (canvas st') = pages_shown (canvas sample_state)
    /\ y_position sample_state - y_position st' = 520
    /\ y_position sample_state - y_position st'
       <> 2 * grid_chart_height + v_gap.
Proof.
  eexists. split; [vm_compute; reflexivity|].
  repeat split; vm_compute; congruence.
Qed.

(** ** Flushing the grid before a wide chart *)

(** A flush leaves slot 0 and touches neither the canvas nor the page
    counter. *)
Lemma flush_grid_resets_slot (st st1 : pdf_state) :
  flush_grid st = Ok st1 ->
  grid_position st1 <= 0
  /\ canvas st1 = canvas st
  /\ section_page st1 = section_page st
  /\ (grid_position st <= 0 -> st1 = st).
Proof.
  unfold flush_grid. destruct (0 <? grid_position st) eqn:E.
  - destruct (grid_row_y st); [|discriminate]. intros [= <-]. simpl.
    apply Z.ltb_lt in E. repeat split; lia.
  - intros [= <-]. apply Z.ltb_ge in E. repeat split; auto.
Qed.

(** A wide chart is placed on the flushed state: the overflow test and the
    drawing read the cursor the flush left. *)
Lemma add_wide_chart_flushes_first (st : pdf_state) (img : image) :
  add_wide_chart (Some img) st =
  match flush_grid st with
  | Raise e => Raise e
  | Ok st1 =>
      let st2 :=
        if y_position st1 - wide_chart_height <? bottom_margin
        then continuation_page st1 else st1 in
      Ok (true,
          set_y (y_position st2 - wide_chart_height - v_gap)
            (emit (DrawImage img margin_left
                     (y_position st2 - wide_chart_height)
                     content_width wide_chart_height) st2))
  end.
Proof. reflexivity. Qed.

(** The state with the first [n] grid slots of a fresh page filled. *)
Definition grid_filled (n : nat) : pdf_state :=
  match add_charts (map Some (firstn n [1; 2; 3]%N)) sample_state with
  | Ok st => st
  | Raise _ => sample_state
  end.

(** C7, the failing input: with three charts in the grid (row top 652) the
    flush moves the cursor to 102, while the fourth chart, which completes
    the grid, moves it to 132; the flush counts 260 per chart row where
    [add_chart] draws rows of 245. With one chart in the grid the flush
    moves the cursor to 377 instead of below the occupied row and its gap
    (652 - 245 - 15 = 392), and the wide chart is drawn with its bottom at
    97 instead of 112. *)
Theorem flush_grid_overshoots_completed_row :
  grid_position (grid_filled 3) = 3
  /\ grid_row_y (grid_filled 3) = Some 652
  /\ (exists st, flush_grid (grid_filled 3) = Ok st
                 /\ grid_position st = 0 /\ y_position st = 102)
  /\ (exists st, add_chart (Some 4%N) (grid_filled 3) = Ok (true, st)
                 /\ grid_position st = 0 /\ y_position st = 132)
  /\ grid_position (grid_filled 1) = 1
  /\ (exists st, flush_grid (grid_filled 1) = Ok st
                 /\ grid_position st = 0 /\ y_position st = 377
                 /\ y_position st <> 652 - grid_chart_height - v_gap)
  /\ (exists st, add_wide_chart (Some 9%N) (grid_filled 1) = Ok (true, st)
                 /\ canvas st = canvas (grid_filled 1)
                                ++ [DrawImage 9%N 25 97 562 280]).
Proof.
  split; [reflexivity|]. split; [reflexivity|].
  split; [eexists; split; [reflexivity|split; reflexivity]|].
  split; [eexists; split; [reflexivity|split; reflexivity]|].
  split; [reflexivity|].
  split; [eexists; split; [reflexivity|]; split; [reflexivity|];
          split; [reflexivity|]; vm_compute; discriminate|].
  eexists; split; reflexivity.
Qed.

(** ** Overflow checks *)

(** Twenty readings for the first table of the boiler section. *)
Definition boiler_data : list measurement :=
  repeat (ph_reading_on (lit "2024-03-05T08:30:00") 7) 20.

(** The boiler section up to its first table: [start_content_page], then
    the table on a page of its own. *)
Definition after_boiler_table : outcome pdf_state :=
  add_data_table_with_limits (B := Reference.builtins) ph_catalog boiler_data
    (lit "AUX BOILER & EGE") (Some (lit "Aux Boiler Data")) true
    (start_content_page (Some (lit "Boiler Water")) false initial_state).

(** The lowest point of what an operation draws. *)
Definition bottom_of (op : canvas_op) : option Z :=
  match op with
  | DrawImage _ _ y _ _ => Some y
  | DrawTable y _ _ => Some y
  | DrawString _ y _ => Some y
  | DrawLine y => Some y
  | _ => None
  end.

(** C5, the failing inputs. The second table of the boiler section
    ([new_page=False]) starts where the first, of twenty rows, left the
    cursor, at 187: its title passes the test of [add_subsection], and its
    three-row table is drawn with its bottom at 43, below the threshold of
    85, with no [showPage] and no continuation page before it; the loop
    that draws the table tests nothing. In the grid only slot 0 is tested,
    for one chart row: from the cursor 357 that a wide chart at the top of
    a page leaves, the third grid chart is drawn with its bottom at -148. *)
Theorem table_and_grid_draw_below_threshold :
  (exists st1 st2,
     after_boiler_table = Done st1
     /\ y_position st1 = 187
     /\ add_data_table_with_limits (B := Reference.builtins) ph_catalog
          sample_data (lit "HOTWELL") (Some (lit "Hotwell Data")) false st1
        = Done st2
     /\ pages_shown (canvas st2) = pages_shown (canvas st1)
     /\ map bottom_of (skipn (length (canvas st1)) (canvas st2))
        = [Some 187; Some 43; Some 28]
     /\ 43 < bottom_margin)
  /\ (exists st1 st2,
        add_wide_chart (Some 9%N) sample_state = Ok (true, st1)
        /\ y_position st1 = 357 /\ grid_position st1 = 0
        /\ add_charts [Some 1; Some 2; Some 3]%N st1 = Ok st2
        /\ pages_shown (canvas st2) = pages_shown (canvas st1)
        /\ map bottom_of (skipn (length (canvas st1)) (canvas st2))
           = [Some 112; Some 112; Some (-148)]
        /\ -148 < bottom_margin).
Proof.
  split.
  - eexists. eexists. split; [vm_compute; reflexivity|].
    split; [reflexivity|]. split; [vm_compute; reflexivity|].
    split; [reflexivity|]. split; reflexivity.
  - eexists. eexists. split; [reflexivity|].
    split; [reflexivity|]. split; [reflexivity|].
    split; [reflexivity|]. split; [reflexivity|]. split; reflexivity.
Qed.

(** ** Empty input *)

Section EmptyInput.

Context `{B : PyBuiltins}.

(** No data, or no chart: the call returns at once and the state is the one
    it was given. *)
Lemma empty_input_is_a_no_op (p : nat) (catalog : pystr -> limits_dict)
    (et : pystr) (title : option pystr) (new_page : bool) (st : pdf_state) :
  add_data_table_with_limits_at p catalog [] et title new_page st = Done st
  /\ add_chart None st = Ok (false, st)
  /\ add_wide_chart None st = Ok (false, st)
  /\ add_table [] headers st = st.
Proof. repeat split. Qed.

End EmptyInput.

(** C9, the failing input: one record, without a value, so that no row is
    derived; with a title and the default [new_page=True]. The call has
    shown a page, raised the section page number from 1 to 2 and moved the
    cursor from 652 to 590 before it finds the row list empty and returns;
    no table is drawn. *)
Theorem empty_row_list_consumes_a_page :
  build_rows (B := Reference.builtins) ph_catalog (lit "POTABLE WATER")
    [null_reading] = Ok ([], [])
  /\ exists st,
       add_data_table_with_limits (B := Reference.builtins) ph_catalog
         [null_reading] (lit "POTABLE WATER")
         (Some (lit "Potable Water Data")) true sample_state = Done st
       /\ pages_shown (canvas st) = S (pages_shown (canvas sample_state))
       /\ section_page sample_state = 1 /\ section_page st = 2
       /\ y_position sample_state = 652 /\ y_position st = 590
       /\ tables_drawn (canvas st) = []
       /\ st <> sample_state.
Proof.
  split; [vm_compute; reflexivity|].
  eexists. split; [vm_compute; reflexivity|].
  repeat (split; [reflexivity|]).
  intros H. apply (f_equal y_position) in H. vm_compute in H. discriminate.
Qed.

(** * Further properties of the layout and of the limit lookup *)

(** ** Sequences of layout calls *)

(** [end_section()] *)
Definition end_section (st : pdf_state) : pdf_state := emit ShowPage st.

(** The grid fields as every call leaves them: a slot from 0 to 3, and a
    row top on record whenever a row is open. *)
Definition grid_ok (st : pdf_state) : Prop :=
  0 <= grid_position st <= 3
  /\ (0 < grid_position st -> grid_row_y st <> None).

(** The page a continuation page starts at: [header_bar_bottom - 40]. *)
Definition page_top : Z := header_bar_bottom - 40.

Section LayoutCalls.

Context `{B : PyBuiltins}.

Variable catalog : pystr -> limits_dict.

(** A call a section generator makes on the report generator. *)
Inductive layout_call : Type :=
| CallStartContentPage (section_name : option pystr)
| CallAddChart (chart_bytes : option image)
| CallAddWideChart (chart_bytes : option image)
| CallFlushGrid
| CallAddSubsection (title : pystr)
| CallAddText (text : pystr)
| CallAddTable (data : list table_row) (headers : table_row)
| CallAddDataTable (data : list measurement) (equipment_type : pystr)
    (title : option pystr) (new_page : bool)
| CallEndSection.

Definition of_result {A : Type} (r : result A) : outcome A :=
  match r with
  | Ok a => Done a
  | Raise e => Raised e
  end.

Definition run_call (c : layout_call) (st : pdf_state) : outcome pdf_state :=
  match c with
  | CallStartContentPage name => Done (start_content_page name false st)
  | CallAddChart chart =>
      match add_chart chart st with
      | Ok (_, st') => Done st'
      | Raise e => Raised e
      end
  | CallAddWideChart chart =>
      match add_wide_chart chart st with
      | Ok (_, st') => Done st'
      | Raise e => Raised e
      end
  | CallFlushGrid => of_result (flush_grid st)
  | CallAddSubsection title => Done (add_subsection title st)
  | CallAddText text => Done (add_text text st)
  | CallAddTable data hd => Done (add_table data hd st)
  | CallAddDataTable data et title new_page =>
      add_data_table_with_limits catalog data et title new_page st
  | CallEndSection => Done (end_section st)
  end.

(** The calls of a generator in order; the first that does not return ends
    the run. *)
Fixpoint run_calls (calls : list layout_call) (st : pdf_state)
  : outcome pdf_state :=
  match calls with
  | [] => Done st
  | c :: rest =>
      match run_call c st with
      | Done st' => run_calls rest st'
      | Raised e => Raised e
      | OutOfFuel => OutOfFuel
      end
  end.

Lemma grid_ok_fields (st st' : pdf_state) :
  grid_position st' = grid_position st -> grid_row_y st' = grid_row_y st ->
  grid_ok st -> grid_ok st'.
Proof. unfold grid_ok. intros -> ->. tauto. Qed.

Lemma grid_ok_slot_0 (st : pdf_state) : grid_position st = 0 -> grid_ok st.
Proof. unfold grid_ok. intros ->. split; lia. Qed.

Lemma continuation_page_grid_ok (st : pdf_state) : grid_ok (continuation_page st).
Proof. now apply grid_ok_slot_0. Qed.

Lemma start_content_page_grid_ok (name : option pystr) (c : bool)
    (st : pdf_state) : grid_ok (start_content_page name c st).
Proof. apply grid_ok_slot_0. now destruct c. Qed.

Lemma add_subsection_grid_ok (t : pystr) (st : pdf_state) :
  grid_ok st -> grid_ok (add_subsection t st).
Proof.
  intros H. unfold add_subsection.
  destruct (y_position st <? 180).
  - apply (grid_ok_fields (continuation_page st)); try reflexivity.
    apply continuation_page_grid_ok.
  - now apply (grid_ok_fields st).
Qed.

Lemma add_text_grid_ok (t : pystr) (st : pdf_state) :
  grid_ok st -> grid_ok (add_text t st).
Proof.
  intros H. unfold add_text.
  destruct (y_position st <? bottom_margin).
  - apply (grid_ok_fields (continuation_page st)); try reflexivity.
    apply continuation_page_grid_ok.
  - now apply (grid_ok_fields st).
Qed.

Lemma add_table_grid_ok (data : list table_row) (hd : table_row)
    (st : pdf_state) : grid_ok st -> grid_ok (add_table data hd st).
Proof.
  intros H. unfold add_table. destruct data as [|row data]; [exact H|].
  destruct (_ <? bottom_margin).
  - apply (grid_ok_fields (continuation_page st)); try reflexivity.
    apply continuation_page_grid_ok.
  - now apply (grid_ok_fields st).
Qed.

Lemma flush_grid_grid_ok (st : pdf_state) :
  grid_ok st ->
  exists st', flush_grid st = Ok st' /\ grid_position st' = 0.
Proof.
  intros [Hr Hy]. unfold flush_grid.
  destruct (0 <? grid_position st) eqn:E.
  - apply Z.ltb_lt in E. destruct (grid_row_y st) as [ry|].
    + eexists. split; reflexivity.
    + now destruct (Hy E).
  - apply Z.ltb_ge in E. exists st. split; [reflexivity|lia].
Qed.

Lemma add_chart_grid_ok (chart : option image) (st : pdf_state) :
  grid_ok st ->
  exists b st', add_chart chart st = Ok (b, st') /\ grid_ok st'.
Proof.
  intros H. destruct chart as [img|]; [|now exists false, st].
  destruct H as [Hr Hy]. destruct st as [y g ry sp cs cv]. simpl in *.
  assert (g = 0 \/ g = 1 \/ g = 2 \/ g = 3) as Hg by lia.
  destruct Hg as [-> | [-> | [-> | ->]]].
  - unfold add_chart. simpl.
    destruct (y - grid_chart_height <? bottom_margin);
      (eexists; eexists; split; [reflexivity|]);
      unfold grid_ok; simpl; split; (lia || discriminate).
  - destruct ry as [ry|]; [|exfalso; apply Hy; [lia|reflexivity]].
    eexists. eexists. split; [reflexivity|].
    unfold grid_ok; simpl; split; (lia || discriminate).
  - destruct ry as [ry|]; [|exfalso; apply Hy; [lia|reflexivity]].
    eexists. eexists. split; [reflexivity|].
    unfold grid_ok; simpl; split; (lia || discriminate).
  - destruct ry as [ry|]; [|exfalso; apply Hy; [lia|reflexivity]].
    eexists. eexists. split; [reflexivity|].
    unfold grid_ok; simpl; split; (lia || discriminate).
Qed.

Lemma add_wide_chart_grid_ok (chart : option image) (st : pdf_state) :
  grid_ok st ->
  exists b st', add_wide_chart chart st = Ok (b, st') /\ grid_ok st'.
Proof.
  intros H. destruct chart as [img|]; [|now exists false, st].
  destruct (flush_grid_grid_ok st H) as (st1 & Hf & Hg).
  unfold add_wide_chart. rewrite Hf.
  eexists. eexists. split; [reflexivity|].
  apply grid_ok_slot_0. simpl.
  now destruct (_ <? bottom_margin).
Qed.

Lemma render_page_grid_ok (p : nat) (title : option pystr)
    (rows : list table_row) (cells : list alert_cell) (k : nat)
    (st : pdf_state) :
  grid_ok st -> grid_ok (render_page p title rows cells k st).
Proof.
  intros H. unfold render_page.
  match goal with
  | |- grid_ok (set_y _ (emit _ ?s)) =>
      apply (grid_ok_fields s); try reflexivity
  end.
  destruct (0 <? k)%nat; [|exact H].
  destruct title as [[|ch t]|];
    [ apply continuation_page_grid_ok
    | apply add_subsection_grid_ok, continuation_page_grid_ok
    | apply continuation_page_grid_ok ].
Qed.

Lemma table_pages_grid_ok (p : nat) (title : option pystr)
    (rows : list table_row) (cells : list alert_cell) :
  forall fuel k st st',
    grid_ok st ->
    table_pages fuel p title rows cells k st = Some st' -> grid_ok st'.
Proof.
  induction fuel as [|fuel IH]; intros k st st' H; simpl;
    destruct (k * p <? length rows)%nat; try discriminate.
  - now intros [= <-].
  - apply IH. now apply render_page_grid_ok.
  - now intros [= <-].
Qed.

Lemma add_legend_grid_ok (cells : list alert_cell) (st : pdf_state) :
  grid_ok st -> grid_ok (add_legend cells st).
Proof. intros H. destruct cells; [exact H|]. now apply (grid_ok_fields st). Qed.

(** The limit table on a state with sound grid fields: it returns, with
    sound grid fields, unless building the rows raises. *)
Lemma add_data_table_grid_ok (data : list measurement) (et : pystr)
    (title : option pystr) (new_page : bool) (st : pdf_state) :
  grid_ok st ->
  (exists st',
     add_data_table_with_limits catalog data et title new_page st = Done st'
     /\ grid_ok st')
  \/ (exists e,
        build_rows catalog et data = Raise e
        /\ add_data_table_with_limits catalog data et title new_page st
           = Raised e).
Proof.
  intros H. unfold add_data_table_with_limits, add_data_table_with_limits_at.
  destruct data as [|item data]; [left; now exists st|].
  destruct (flush_grid_grid_ok st H) as (st1 & Hf & Hg). rewrite Hf.
  destruct (build_rows catalog et (item :: data)) as [[rows cells]|e];
    [|right; now exists e].
  left.
  set (st2 := if new_page then continuation_page st1 else st1).
  assert (grid_ok st2) as H2.
  { subst st2. destruct new_page;
      [apply continuation_page_grid_ok|now apply grid_ok_slot_0]. }
  set (st3 := match title with
              | Some ((_ :: _) as t) => add_subsection t st2
              | _ => st2
              end).
  assert (grid_ok st3) as H3.
  { subst st3. destruct title as [[|ch t]|]; try exact H2.
    now apply add_subsection_grid_ok. }
  destruct rows as [|row rows]; [now exists st3|].
  destruct (table_pages_run max_rows_per_page title (row :: rows) cells
              (Nat.lt_0_succ _) (length (row :: rows)) 0%nat st3)
    as (st4 & Hrun & _); [lia|].
  rewrite Hrun. eexists. split; [reflexivity|].
  apply add_legend_grid_ok.
  now apply (table_pages_grid_ok _ _ _ _ _ _ _ _ H3 Hrun).
Qed.

Lemma run_call_grid_ok (c : layout_call) (st : pdf_state) :
  grid_ok st ->
  (exists st', run_call c st = Done st' /\ grid_ok st')
  \/ (exists data et title new_page e,
        c = CallAddDataTable data et title new_page
        /\ build_rows catalog et data = Raise e
        /\ run_call c st = Raised e).
Proof.
  intros H. destruct c; simpl.
  - left. eexists. split; [reflexivity|apply start_content_page_grid_ok].
  - left. destruct (add_chart_grid_ok chart_bytes st H) as (b & st' & -> & H').
    now exists st'.
  - left.
    destruct (add_wide_chart_grid_ok chart_bytes st H) as (b & st' & -> & H').
    now exists st'.
  - left. destruct (flush_grid_grid_ok st H) as (st' & -> & Hg).
    exists st'. split; [reflexivity|now apply grid_ok_slot_0].
  - left. eexists. split; [reflexivity|now apply add_subsection_grid_ok].
  - left. eexists. split; [reflexivity|now apply add_text_grid_ok].
  - left. eexists. split; [reflexivity|now apply add_table_grid_ok].
  - destruct (add_data_table_grid_ok data equipment_type title new_page st H)
      as [(st' & Hd & H')|(e & He & Hr)].
    + left. now exists st'.
    + right. now exists data, equipment_type, title, new_page, e.
  - left. eexists. split; [reflexivity|]. now apply (grid_ok_fields st).
Qed.

(** X1: the grid fields stay sound under every sequence of layout calls.
    The state [__init__] leaves has a slot from 0 to 3 and a row top on
    record whenever the slot is not 0; on such a state every call returns
    and leaves such a state again, except that the limit table passes on
    what building its rows raises; so no call ever fails on a [grid_row_y]
    that is still [None], and a run of calls that returns ends with a slot
    from 0 to 3. *)
Theorem layout_calls_keep_grid_sound :
  grid_ok initial_state
  /\ (forall c st, grid_ok st ->
        (exists st', run_call c st = Done st' /\ grid_ok st')
        \/ (exists data et title new_page e,
              c = CallAddDataTable data et title new_page
              /\ build_rows catalog et data = Raise e
              /\ run_call c st = Raised e))
  /\ (forall calls st st',
        grid_ok st -> run_calls calls st = Done st' ->
        0 <= grid_position st' <= 3 /\ grid_ok st').
Proof.
  split; [now apply grid_ok_slot_0|]. split; [apply run_call_grid_ok|].
  induction calls as [|c calls IH]; intros st st' H Hrun; simpl in Hrun.
  - injection Hrun as <-. split; [apply H|exact H].
  - destruct (run_call_grid_ok c st H)
      as [(st1 & Hc & H1)|(d & et & t & np & e & _ & _ & Hr)].
    + rewrite Hc in Hrun. now apply (IH st1).
    + rewrite Hr in Hrun. discriminate.
Qed.

End LayoutCalls.

(** ** Page accounting *)

(** Between two states the section page number has grown by the number of
    pages shown, and the section is the same. *)
Definition paged (st st' : pdf_state) : Prop :=
  section_page st' - section_page st
  = Z.of_nat (pages_shown (canvas st')) - Z.of_nat (pages_shown (canvas st))
  /\ current_section st' = current_section st.

(** The calls a generator makes between [start_content_page] and
    [end_section]. *)
Definition within_section (c : layout_call) : bool :=
  match c with
  | CallStartContentPage _ | CallEndSection => false
  | _ => true
  end.

Section PageAccounting.

Context `{B : PyBuiltins}.

Lemma paged_refl (st : pdf_state) : paged st st.
Proof. unfold paged. split; [lia|reflexivity]. Qed.

Lemma paged_trans (a b c : pdf_state) : paged a b -> paged b c -> paged a c.
Proof. unfold paged. intros [H1 E1] [H2 E2]. split; [lia|congruence]. Qed.

(** A state that differs in the cursor and the grid fields only, or by
    drawings that show no page. *)
Lemma paged_same (st st' : pdf_state) :
  section_page st' = section_page st ->
  current_section st' = current_section st ->
  pages_shown (canvas st') = pages_shown (canvas st) ->
  paged st st'.
Proof. unfold paged. intros -> -> ->. split; [lia|reflexivity]. Qed.

Lemma pages_shown_snoc (ops : list canvas_op) (op : canvas_op) :
  pages_shown (ops ++ [op]) =
  (pages_shown ops + match op with ShowPage => 1 | _ => 0 end)%nat.
Proof. rewrite pages_shown_app. now destruct op. Qed.

Lemma continuation_page_paged (st : pdf_state) : paged st (continuation_page st).
Proof.
  unfold paged, continuation_page, start_content_page. simpl.
  rewrite !pages_shown_snoc. split; [lia|reflexivity].
Qed.

Lemma continuation_page_shown (st : pdf_state) :
  pages_shown (canvas (continuation_page st)) = S (pages_shown (canvas st)).
Proof.
  unfold continuation_page, start_content_page. simpl.
  rewrite !pages_shown_snoc. lia.
Qed.

Lemma emit_draw_paged (st : pdf_state) (op : canvas_op) (y : Z) :
  op <> ShowPage -> paged st (set_y y (emit op st)).
Proof.
  intros H. apply paged_same; try reflexivity. simpl.
  rewrite pages_shown_snoc. destruct op; try lia. now destruct H.
Qed.

Lemma add_subsection_paged (t : pystr) (st : pdf_state) :
  paged st (add_subsection t st).
Proof.
  unfold add_subsection. destruct (y_position st <? 180).
  - eapply paged_trans; [apply continuation_page_paged|].
    now apply emit_draw_paged.
  - now apply emit_draw_paged.
Qed.

Lemma add_text_paged (t : pystr) (st : pdf_state) : paged st (add_text t st).
Proof.
  unfold add_text. destruct (y_position st <? bottom_margin).
  - eapply paged_trans; [apply continuation_page_paged|].
    now apply emit_draw_paged.
  - now apply emit_draw_paged.
Qed.

Lemma add_table_paged (data : list table_row) (hd : table_row)
    (st : pdf_state) : paged st (add_table data hd st).
Proof.
  unfold add_table. destruct data as [|row data]; [apply paged_refl|].
  destruct (_ <? bottom_margin).
  - eapply paged_trans; [apply continuation_page_paged|].
    now apply emit_draw_paged.
  - now apply emit_draw_paged.
Qed.

Lemma flush_grid_paged (st st' : pdf_state) :
  flush_grid st = Ok st' -> paged st st'.
Proof.
  unfold flush_grid. destruct (0 <? grid_position st).
  - destruct (grid_row_y st); [|discriminate]. intros [= <-].
    now apply paged_same.
  - intros [= <-]. apply paged_refl.
Qed.

Lemma add_chart_paged (chart : option image) (st st' : pdf_state) (b : bool) :
  add_chart chart st = Ok (b, st') -> paged st st'.
Proof.
  destruct chart as [img|]; [|intros [= _ <-]; apply paged_refl].
  unfold add_chart.
  set (st1 := if grid_position st =? 0 then _ else st).
  assert (paged st st1) as H1.
  { subst st1. destruct (grid_position st =? 0); [|apply paged_refl].
    destruct (_ <? bottom_margin).
    - eapply paged_trans; [apply continuation_page_paged|].
      now apply paged_same.
    - now apply paged_same. }
  destruct (grid_row_y st1) as [ry|]; [|discriminate].
  destruct (4 <=? _); intros [= _ <-];
    (eapply paged_trans; [exact H1|]); apply paged_same; try reflexivity;
    simpl; rewrite pages_shown_snoc; lia.
Qed.

Lemma add_wide_chart_paged (chart : option image) (st st' : pdf_state)
    (b : bool) :
  add_wide_chart chart st = Ok (b, st') -> paged st st'.
Proof.
  destruct chart as [img|]; [|intros [= _ <-]; apply paged_refl].
  unfold add_wide_chart.
  destruct (flush_grid st) as [st1|] eqn:Hf; [|discriminate].
  intros [= _ <-].
  eapply paged_trans; [apply (flush_grid_paged _ _ Hf)|].
  destruct (_ <? bottom_margin).
  - eapply paged_trans; [apply continuation_page_paged|].
    now apply emit_draw_paged.
  - now apply emit_draw_paged.
Qed.

Lemma render_page_paged (p : nat) (title : option pystr)
    (rows : list table_row) (cells : list alert_cell) (k : nat)
    (st : pdf_state) :
  paged st (render_page p title rows cells k st).
Proof.
  unfold render_page.
  match goal with
  | |- paged _ (set_y _ (emit _ ?s)) =>
      apply (paged_trans _ s); [|now apply emit_draw_paged]
  end.
  destruct (0 <? k)%nat; [|apply paged_refl].
  destruct title as [[|ch t]|];
    [ apply continuation_page_paged
    | eapply paged_trans;
        [apply continuation_page_paged|apply add_subsection_paged]
    | apply continuation_page_paged ].
Qed.

Lemma table_pages_paged (p : nat) (title : option pystr)
    (rows : list table_row) (cells : list alert_cell) :
  forall fuel k st st',
    table_pages fuel p title rows cells k st = Some st' -> paged st st'.
Proof.
  induction fuel as [|fuel IH]; intros k st st'; simpl;
    destruct (k * p <? length rows)%nat; try discriminate.
  - intros [= <-]. apply paged_refl.
  - intros H. eapply paged_trans; [apply render_page_paged|].
    exact (IH _ _ _ H).
  - intros [= <-]. apply paged_refl.
Qed.

Lemma add_data_table_paged (p : nat) (catalog : pystr -> limits_dict)
    (data : list measurement) (et : pystr) (title : option pystr)
    (new_page : bool) (st st' : pdf_state) :
  add_data_table_with_limits_at p catalog data et title new_page st = Done st'
  -> paged st st'.
Proof.
  unfold add_data_table_with_limits_at.
  destruct data as [|item data]; [intros [= <-]; apply paged_refl|].
  destruct (flush_grid st) as [st1|] eqn:Hf; [|discriminate].
  destruct (build_rows catalog et (item :: data)) as [[rows cells]|];
    [|discriminate].
  set (st2 := if new_page then continuation_page st1 else st1).
  set (st3 := match title with
              | Some ((_ :: _) as t) => add_subsection t st2
              | _ => st2
              end).
  assert (paged st st3) as H3.
  { eapply paged_trans; [apply (flush_grid_paged _ _ Hf)|].
    apply (paged_trans _ st2).
    - subst st2. destruct new_page;
        [apply continuation_page_paged|apply paged_refl].
    - subst st3. destruct title as [[|ch t]|]; try apply paged_refl.
      apply add_subsection_paged. }
  destruct rows as [|row rows]; [now intros [= <-]|].
  destruct (table_pages _ _ _ _ _ _ _) as [st4|] eqn:Hrun; [|discriminate].
  intros [= <-].
  eapply paged_trans; [exact H3|].
  eapply paged_trans; [apply (table_pages_paged _ _ _ _ _ _ _ _ Hrun)|].
  destruct cells; [apply paged_refl|]. now apply emit_draw_paged.
Qed.

(** X2: within a section the page number in the header counts the pages.
    Every call other than [start_content_page] and [end_section] that
    returns has raised [section_page] by exactly the number of [showPage]
    calls it made and has kept [current_section]; the same holds of every
    run of such calls, so after [start_content_page] and such a run the
    section page number is 1 plus the pages shown since. *)
Theorem section_page_counts_pages_shown (catalog : pystr -> limits_dict) :
  (forall c st st',
     within_section c = true -> run_call catalog c st = Done st' ->
     paged st st')
  /\ (forall calls st st',
        forallb within_section calls = true ->
        run_calls catalog calls st = Done st' -> paged st st')
  /\ (forall name calls st st',
        forallb within_section calls = true ->
        run_calls catalog (CallStartContentPage name :: calls) st = Done st' ->
        current_section st' = name
        /\ section_page st'
           = 1 + Z.of_nat (pages_shown (canvas st'))
               - Z.of_nat (pages_shown (canvas st))).
Proof.
  assert (forall c st st',
            within_section c = true -> run_call catalog c st = Done st' ->
            paged st st') as Hcall.
  { intros c st st' Hw. destruct c; simpl in *; try discriminate.
    - destruct (add_chart chart_bytes st) as [[b s]|] eqn:E; [|discriminate].
      intros [= <-]. exact (add_chart_paged _ _ _ _ E).
    - destruct (add_wide_chart chart_bytes st) as [[b s]|] eqn:E;
        [|discriminate].
      intros [= <-]. exact (add_wide_chart_paged _ _ _ _ E).
    - destruct (flush_grid st) as [s|] eqn:E; [|discriminate].
      intros [= <-]. exact (flush_grid_paged _ _ E).
    - intros [= <-]. apply add_subsection_paged.
    - intros [= <-]. apply add_text_paged.
    - intros [= <-]. apply add_table_paged.
    - apply add_data_table_paged. }
  assert (forall calls st st',
            forallb within_section calls = true ->
            run_calls catalog calls st = Done st' -> paged st st') as Hrun.
  { induction calls as [|c calls IH]; intros st st' Hw Hr; simpl in *.
    - injection Hr as <-. apply paged_refl.
    - apply andb_true_iff in Hw as [Hc Hw].
      destruct (run_call catalog c st) as [s| |] eqn:E; try discriminate.
      eapply paged_trans; [exact (Hcall _ _ _ Hc E)|exact (IH _ _ Hw Hr)]. }
  split; [exact Hcall|]. split; [exact Hrun|].
  intros name calls st st' Hw Hr. simpl in Hr.
  destruct (Hrun _ _ _ Hw Hr) as [Hp Hs].
  split; [rewrite Hs; reflexivity|].
  unfold start_content_page in Hp. simpl in Hp.
  rewrite pages_shown_snoc in Hp. lia.
Qed.

End PageAccounting.

(** ** Where single elements are drawn *)

Lemma continuation_page_fields (st : pdf_state) :
  y_position (continuation_page st) = page_top
  /\ grid_position (continuation_page st) = 0
  /\ section_page (continuation_page st) = section_page st + 1
  /\ current_section (continuation_page st) = current_section st
  /\ canvas (continuation_page st) =
     canvas st ++ [ShowPage;
                   DrawSectionHeader (current_section st)
                     (Some (section_page st + 1))].
Proof.
  unfold continuation_page, start_content_page. simpl.
  rewrite <- app_assoc. repeat split.
Qed.

Lemma canvas_set_y_emit (y : Z) (op : canvas_op) (st : pdf_state) :
  canvas (set_y y (emit op st)) = canvas st ++ [op].
Proof. reflexivity. Qed.

Lemma y_position_set_y (y : Z) (st : pdf_state) : y_position (set_y y st) = y.
Proof. reflexivity. Qed.

Lemma y_position_emit (op : canvas_op) (st : pdf_state) :
  y_position (emit op st) = y_position st.
Proof. reflexivity. Qed.

(** X3: a wide chart never reaches below the bottom threshold. Once the
    grid is flushed, [add_wide_chart] draws the chart at the left margin,
    over the full content width and 280 high, with its bottom at or above
    85: right below the cursor when 280 fit above the threshold, and
    otherwise on a continuation page, with its bottom at 372, after one
    [showPage] and the section header with the next page number; the cursor
    ends one gap below the chart. *)
Theorem wide_chart_stays_above_threshold
    (st st1 : pdf_state) (img : image) :
  flush_grid st = Ok st1 ->
  exists st' y,
    add_wide_chart (Some img) st = Ok (true, st')
    /\ bottom_margin <= y
    /\ y_position st' = y - v_gap
    /\ (bottom_margin <= y_position st1 - wide_chart_height ->
        y = y_position st1 - wide_chart_height
        /\ canvas st' =
           canvas st ++
           [DrawImage img margin_left y content_width wide_chart_height])
    /\ (y_position st1 - wide_chart_height < bottom_margin ->
        y = 372
        /\ canvas st' =
           canvas st ++
           [ShowPage;
            DrawSectionHeader (current_section st) (Some (section_page st + 1));
            DrawImage img margin_left y content_width wide_chart_height]).
Proof.
  intros Hf. unfold add_wide_chart. rewrite Hf.
  destruct (flush_grid_resets_slot _ _ Hf) as (_ & Hc & Hp & _).
  pose proof (flush_grid_paged _ _ Hf) as [_ Hs].
  destruct (y_position st1 - wide_chart_height <? bottom_margin) eqn:E.
  - apply Z.ltb_lt in E.
    destruct (continuation_page_fields st1) as (Hy & _ & _ & _ & Hcv).
    eexists. exists 372. split; [rewrite Hy; reflexivity|].
    split; [vm_compute; discriminate|]. split; [reflexivity|].
    split; [lia|]. intros _. split; [reflexivity|].
    rewrite canvas_set_y_emit, Hcv, Hc, Hs, Hp, <- app_assoc.
    reflexivity.
  - apply Z.ltb_ge in E.
    eexists. exists (y_position st1 - wide_chart_height).
    split; [reflexivity|]. split; [exact E|]. split; [reflexivity|].
    split; [|lia]. intros _. split; [reflexivity|].
    rewrite canvas_set_y_emit. now rewrite Hc.
Qed.

Lemma wide_chart_stays_above_threshold_witness :
  flush_grid (grid_filled 1) = Ok (set_grid_position 0 (set_y 377 (grid_filled 1)))
  /\ exists st' y,
       add_wide_chart (Some 9%N) (grid_filled 1) = Ok (true, st')
       /\ bottom_margin <= y /\ y_position st' = y - v_gap.
Proof.
  assert (flush_grid (grid_filled 1)
          = Ok (set_grid_position 0 (set_y 377 (grid_filled 1)))) as H
    by reflexivity.
  split; [exact H|].
  destruct (wide_chart_stays_above_threshold _ _ 9%N H)
    as (st' & y & Hr & Hy & Hp & _).
  exists st', y. split; [exact Hr|]. split; [exact Hy|exact Hp].
Defined.

(** X4: [add_table] keeps a table of up to 24 rows above the bottom
    threshold, and cannot keep a longer one. A non-empty table is drawn
    once, with the header row on top, every row 22 high plus 10; with at
    most 24 data rows its bottom is at or above 85, on the current page
    when it fits there and on a continuation page otherwise. With 25 rows
    or more and the cursor at or below the top of a page, a continuation
    page is opened and the table still ends below 85. No data draws
    nothing. *)
Theorem add_table_fits_up_to_24_rows
    (data : list table_row) (hd : table_row) (st : pdf_state) :
  data <> [] ->
  let table_height := Z.of_nat (length (hd :: data)) * 22 + 10 in
  let st' := add_table data hd st in
  exists y,
    tables_drawn (canvas st') =
      tables_drawn (canvas st) ++ [(data, add_table_style)]
    /\ (exists ops, canvas st' =
                    ops ++ [DrawTable y (hd :: data) add_table_style])
    /\ y_position st' = y - 25
    /\ (bottom_margin <= y_position st - table_height ->
        y = y_position st - table_height
        /\ pages_shown (canvas st') = pages_shown (canvas st))
    /\ (y_position st - table_height < bottom_margin ->
        y = page_top - table_height
        /\ pages_shown (canvas st') = S (pages_shown (canvas st)))
    /\ ((length data <= 24)%nat -> bottom_margin <= y)
    /\ ((25 <= length data)%nat -> y_position st <= page_top ->
        y < bottom_margin
        /\ pages_shown (canvas st') = S (pages_shown (canvas st))).
Proof.
  intros Hne table_height st'. subst st'. unfold add_table.
  destruct data as [|row data]; [now destruct Hne|].
  fold table_height.
  assert ((length (row :: data) <= 24)%nat ->
          bottom_margin <= page_top - table_height) as Hfit.
  { intros Hl. subst table_height. simpl length in *.
    unfold bottom_margin, page_top, header_bar_bottom, page_height. lia. }
  assert ((25 <= length (row :: data))%nat ->
          page_top - table_height < bottom_margin) as Hover.
  { intros Hl. subst table_height. simpl length in *.
    unfold bottom_margin, page_top, header_bar_bottom, page_height. lia. }
  destruct (y_position st - table_height <? bottom_margin) eqn:E.
  - apply Z.ltb_lt in E.
    destruct (continuation_page_fields st) as (Hy & _ & _ & _ & Hcv).
    exists (page_top - table_height).
    rewrite canvas_set_y_emit, y_position_set_y, y_position_emit, Hy.
    split.
    { rewrite tables_drawn_app, continuation_page_tables. reflexivity. }
    split; [eexists; reflexivity|]. split; [lia|].
    split; [lia|].
    split.
    { intros _. split; [reflexivity|].
      rewrite pages_shown_snoc, continuation_page_shown. lia. }
    split; [exact Hfit|].
    intros Hl _. split; [now apply Hover|].
    rewrite pages_shown_snoc, continuation_page_shown. lia.
  - apply Z.ltb_ge in E.
    exists (y_position st - table_height).
    rewrite canvas_set_y_emit, y_position_set_y, y_position_emit.
    split; [now rewrite tables_drawn_app|].
    split; [eexists; reflexivity|]. split; [lia|].
    split.
    { intros _. split; [reflexivity|]. rewrite pages_shown_snoc. lia. }
    split; [lia|].
    split; [intros _; exact E|].
    intros Hl Hy. apply Hover in Hl. lia.
Qed.

Lemma add_table_fits_up_to_24_rows_witness :
  sample_rows <> []
  /\ exists y,
       tables_drawn (canvas (add_table sample_rows headers sample_state)) =
         tables_drawn (canvas sample_state) ++ [(sample_rows, add_table_style)]
       /\ y_position (add_table sample_rows headers sample_state) = y - 25.
Proof.
  assert (sample_rows <> []) as H by discriminate.
  split; [exact H|].
  destruct (add_table_fits_up_to_24_rows sample_rows headers sample_state H)
    as (y & Ht & _ & Hy & _).
  exists y. split; [exact Ht|exact Hy].
Defined.

(** X5: a subsection title is never drawn below 180 and a text line never
    below 85. [add_subsection] draws the title at the cursor when that is
    at 180 or above and at the top of a continuation page otherwise, and
    moves the cursor 62 down; [add_text] does the same with the mark 85 and
    16 down; each shows at most one page. *)
Theorem titles_and_text_stay_above_marks (t : pystr) (st : pdf_state) :
  (exists y ops,
     180 <= y
     /\ canvas (add_subsection t st) = ops ++ [DrawString margin_left y t]
     /\ y_position (add_subsection t st) = y - 62
     /\ (180 <= y_position st -> y = y_position st /\ ops = canvas st)
     /\ (y_position st < 180 ->
         y = page_top /\ ops = canvas (continuation_page st)))
  /\ (exists y ops,
        bottom_margin <= y
        /\ canvas (add_text t st) = ops ++ [DrawString margin_left y t]
        /\ y_position (add_text t st) = y - 16
        /\ (bottom_margin <= y_position st ->
            y = y_position st /\ ops = canvas st)
        /\ (y_position st < bottom_margin ->
            y = page_top /\ ops = canvas (continuation_page st))).
Proof.
  split.
  - unfold add_subsection. destruct (y_position st <? 180) eqn:E.
    + apply Z.ltb_lt in E. exists page_top, (canvas (continuation_page st)).
      split; [vm_compute; discriminate|].
      destruct (continuation_page_fields st) as (Hy & _).
      rewrite canvas_set_y_emit, y_position_set_y, y_position_emit, Hy.
      repeat split; lia.
    + apply Z.ltb_ge in E. exists (y_position st), (canvas st).
      rewrite canvas_set_y_emit, y_position_set_y, y_position_emit.
      repeat split; lia.
  - unfold add_text. destruct (y_position st <? bottom_margin) eqn:E.
    + apply Z.ltb_lt in E. exists page_top, (canvas (continuation_page st)).
      split; [vm_compute; discriminate|].
      destruct (continuation_page_fields st) as (Hy & _).
      rewrite canvas_set_y_emit, y_position_set_y, y_position_emit, Hy.
      repeat split; lia.
    + apply Z.ltb_ge in E. exists (y_position st), (canvas st).
      rewrite canvas_set_y_emit, y_position_set_y, y_position_emit.
      repeat split; lia.
Qed.

(** ** The limit table on pages of its own *)

(** The bottoms of the tables on a canvas, in drawing order. *)
Definition table_bottoms (ops : list canvas_op) : list Z :=
  flat_map (fun op => match op with
                      | DrawTable y _ _ => [y]
                      | _ => []
                      end) ops.

(** The lowest bottom a table page of at most [p] rows can have when it
    starts at the top of a page, below a title or not. *)
Definition lowest_page_bottom (p : nat) : Z :=
  page_top - 62 - ((Z.of_nat p + 1) * 18 + 10).

Section TableOnOwnPages.

Context `{B : PyBuiltins}.

Lemma table_bottoms_app (a b : list canvas_op) :
  table_bottoms (a ++ b) = table_bottoms a ++ table_bottoms b.
Proof. unfold table_bottoms. apply flat_map_app. Qed.

Lemma continuation_page_bottoms (st : pdf_state) :
  table_bottoms (canvas (continuation_page st)) = table_bottoms (canvas st).
Proof.
  destruct (continuation_page_fields st) as (_ & _ & _ & _ & ->).
  rewrite table_bottoms_app. simpl. apply app_nil_r.
Qed.

(** A title at the top of a fresh page: no further page, cursor at 590. *)
Lemma add_subsection_on_fresh_page (t : pystr) (st : pdf_state) :
  y_position st = page_top ->
  y_position (add_subsection t st) = page_top - 62
  /\ table_bottoms (canvas (add_subsection t st)) = table_bottoms (canvas st)
  /\ pages_shown (canvas (add_subsection t st)) = pages_shown (canvas st).
Proof.
  intros Hy. unfold add_subsection. rewrite Hy.
  change (page_top <? 180) with false. cbv iota.
  rewrite canvas_set_y_emit, y_position_set_y, y_position_emit, Hy.
  split; [lia|]. split.
  - rewrite table_bottoms_app. simpl. apply app_nil_r.
  - rewrite pages_shown_snoc. lia.
Qed.

(** The state a page after the first is drawn on. *)
Lemma later_page_start (title : option pystr) (st : pdf_state) :
  let st1 :=
    match title with
    | Some ((_ :: _) as t) =>
        add_subsection (t ++ lit " (continued)") (continuation_page st)
    | _ => continuation_page st
    end in
  page_top - 62 <= y_position st1
  /\ table_bottoms (canvas st1) = table_bottoms (canvas st)
  /\ pages_shown (canvas st1) = S (pages_shown (canvas st)).
Proof.
  destruct (continuation_page_fields st) as (Hy & _).
  assert (page_top - 62 <= y_position (continuation_page st)
          /\ table_bottoms (canvas (continuation_page st))
             = table_bottoms (canvas st)
          /\ pages_shown (canvas (continuation_page st))
             = S (pages_shown (canvas st))) as Hc.
  { rewrite Hy, continuation_page_bottoms, continuation_page_shown.
    repeat split. lia. }
  destruct title as [[|ch t]|]; try exact Hc.
  destruct (add_subsection_on_fresh_page ((ch :: t) ++ lit " (continued)")
              (continuation_page st) Hy) as (H1 & H2 & H3).
  cbv zeta. rewrite H1, H2, H3, continuation_page_bottoms,
    continuation_page_shown.
  repeat split. lia.
Qed.

Lemma render_later_page (p : nat) (title : option pystr)
    (rows : list table_row) (cells : list alert_cell) (k : nat)
    (st : pdf_state) :
  (0 < k)%nat ->
  exists b,
    lowest_page_bottom p <= b
    /\ table_bottoms (canvas (render_page p title rows cells k st))
       = table_bottoms (canvas st) ++ [b]
    /\ pages_shown (canvas (render_page p title rows cells k st))
       = S (pages_shown (canvas st)).
Proof.
  intros Hk. unfold render_page.
  replace (0 <? k)%nat with true by (symmetry; now apply Nat.ltb_lt).
  destruct (later_page_start title st) as (Hy & Hb & Hs). cbv zeta in Hy, Hb, Hs.
  set (st1 := match title with
              | Some ((_ :: _) as t) =>
                  add_subsection (t ++ lit " (continued)") (continuation_page st)
              | _ => continuation_page st
              end) in *.
  eexists. rewrite canvas_set_y_emit, table_bottoms_app, pages_shown_snoc.
  split; [|split; [rewrite Hb; reflexivity|rewrite Hs; lia]].
  unfold lowest_page_bottom. simpl length.
  pose proof (page_rows_of_length p rows k). lia.
Qed.

Lemma later_pages_run (p : nat) (title : option pystr)
    (rows : list table_row) (cells : list alert_cell) :
  (0 < p)%nat ->
  forall fuel k st,
    (0 < k)%nat ->
    (length rows - k * p <= fuel)%nat ->
    exists st' bs,
      table_pages fuel p title rows cells k st = Some st'
      /\ table_bottoms (canvas st') = table_bottoms (canvas st) ++ bs
      /\ Forall (fun b => lowest_page_bottom p <= b) bs
      /\ length bs = (ceil_div (length rows) p - k)%nat
      /\ pages_shown (canvas st')
         = (pages_shown (canvas st) + (ceil_div (length rows) p - k))%nat.
Proof.
  intros Hp. induction fuel as [|fuel IH]; intros k st Hk Hf; simpl;
    destruct (k * p <? length rows)%nat eqn:E.
  - apply Nat.ltb_lt in E. lia.
  - apply Nat.ltb_ge in E. exists st, [].
    assert (ceil_div (length rows) p - k = 0)%nat as ->.
    { destruct (Nat.le_gt_cases (ceil_div (length rows) p) k) as [H|H];
        [lia|]. apply (lt_ceil_div _ p k Hp) in H. lia. }
    rewrite app_nil_r, Nat.add_0_r. repeat split. constructor.
  - apply Nat.ltb_lt in E.
    destruct (render_later_page p title rows cells k st Hk) as (b & Hb & Ht & Hs).
    destruct (IH (S k) (render_page p title rows cells k st))
      as (st' & bs & Hrun & Hbs & Hall & Hlen & Hshown);
      [lia|simpl; lia|].
    pose proof (proj1 (lt_ceil_div _ p k Hp) E) as Hlt.
    exists st', (b :: bs). split; [exact Hrun|].
    split; [rewrite Hbs, Ht, <- app_assoc; reflexivity|].
    split; [now constructor|].
    split; [simpl; lia|]. lia.
  - apply Nat.ltb_ge in E. exists st, [].
    assert (ceil_div (length rows) p - k = 0)%nat as ->.
    { destruct (Nat.le_gt_cases (ceil_div (length rows) p) k) as [H|H];
        [lia|]. apply (lt_ceil_div _ p k Hp) in H. lia. }
    rewrite app_nil_r, Nat.add_0_r. repeat split. constructor.
Qed.

(** X6: with [new_page=True] the limit table stays above the bottom
    threshold and uses exactly one page per chunk. For a page size from 1
    to 26 (the source sets 24) and a call that derives [N >= 1] rows, the
    call returns having drawn [ceil(N / p)] tables, each with its bottom at
    or above 85; it has shown exactly [ceil(N / p)] pages, and the section
    page number has grown by as much. *)
Theorem table_on_own_pages_fits (p : nat)
    (catalog : pystr -> limits_dict) (data : list measurement) (et : pystr)
    (title : option pystr) (st st1 : pdf_state)
    (rows : list table_row) (cells : list alert_cell) :
  (0 < p <= 26)%nat ->
  flush_grid st = Ok st1 ->
  build_rows catalog et data = Ok (rows, cells) ->
  rows <> [] ->
  let pages := ceil_div (length rows) p in
  exists st' bs,
    add_data_table_with_limits_at p catalog data et title true st = Done st'
    /\ table_bottoms (canvas st') = table_bottoms (canvas st) ++ bs
    /\ length bs = pages
    /\ Forall (fun b => bottom_margin <= b) bs
    /\ pages_shown (canvas st') = (pages_shown (canvas st) + pages)%nat
    /\ section_page st' = section_page st + Z.of_nat pages.
Proof.
  intros [Hp Hp26] Hflush Hrows Hne pages.
  assert (forall b, lowest_page_bottom p <= b -> bottom_margin <= b) as Hlow.
  { intros b. unfold lowest_page_bottom, bottom_margin, page_top,
      header_bar_bottom, page_height. lia. }
  destruct (add_data_table_draws_pages p catalog data et title true st st1
              rows cells Hp Hflush Hrows Hne) as (st' & Hdone & _).
  exists st'.
  pose proof (add_data_table_paged _ _ _ _ _ _ _ _ Hdone) as [Hpaged _].
  revert Hdone. unfold add_data_table_with_limits_at.
  destruct data as [|item data'].
  { injection Hrows as <- _. now destruct Hne. }
  rewrite Hflush, Hrows.
  destruct rows as [|row rows']; [now destruct Hne|].
  destruct (flush_grid_resets_slot _ _ Hflush) as (_ & Hc1 & _).
  destruct (continuation_page_fields st1) as (Hy2 & _).
  set (st2 := continuation_page st1) in *.
  set (st3 := match title with
              | Some ((_ :: _) as t) => add_subsection t st2
              | _ => st2
              end).
  assert (page_top - 62 <= y_position st3
          /\ table_bottoms (canvas st3) = table_bottoms (canvas st)
          /\ pages_shown (canvas st3) = S (pages_shown (canvas st)))
    as (Hy3 & Hb3 & Hs3).
  { assert (table_bottoms (canvas st2) = table_bottoms (canvas st)) as Hb2
      by (subst st2; now rewrite continuation_page_bottoms, Hc1).
    assert (pages_shown (canvas st2) = S (pages_shown (canvas st))) as Hs2
      by (subst st2; now rewrite continuation_page_shown, Hc1).
    subst st3. destruct title as [[|ch t]|];
      try (rewrite Hy2, Hb2, Hs2; repeat split; lia).
    destruct (add_subsection_on_fresh_page (ch :: t) st2 Hy2) as (H1 & H2 & H3).
    rewrite H1, H2, H3, Hb2, Hs2. repeat split. lia. }
  simpl table_pages.
  replace (0 <? length (row :: rows'))%nat with true by reflexivity.
  set (st4 := render_page p title (row :: rows') cells 0 st3).
  destruct (later_pages_run p title (row :: rows') cells Hp
              (length rows') 1%nat st4) as (st5 & bs & Hrun & Hbs & Hall & Hlen & Hsh);
    [lia|simpl length; lia|].
  rewrite Hrun. intros [= <-].
  assert (0 < pages)%nat as Hpages.
  { subst pages.
    apply (proj1 (lt_ceil_div (length (row :: rows')) p 0 Hp)). simpl. lia. }
  exists ((y_position st3
           - (Z.of_nat (length (headers :: page_rows_of p (row :: rows') 0)) * 18
              + 10)) :: bs).
  assert (table_bottoms (canvas st4)
          = table_bottoms (canvas st)
            ++ [y_position st3
                - (Z.of_nat (length (headers :: page_rows_of p (row :: rows') 0))
                   * 18 + 10)]) as Hb4.
  { subst st4. unfold render_page. cbv iota zeta.
    change (0 <? 0)%nat with false. cbv iota.
    rewrite canvas_set_y_emit, table_bottoms_app, Hb3. reflexivity. }
  assert (pages_shown (canvas st4) = S (pages_shown (canvas st))) as Hs4.
  { subst st4. unfold render_page. change (0 <? 0)%nat with false.
    cbv iota zeta. rewrite canvas_set_y_emit, pages_shown_snoc, Hs3. lia. }
  assert (pages_shown (canvas (add_legend cells st5))
          = (pages_shown (canvas st) + pages)%nat) as Hshown.
  { assert (pages_shown (canvas (add_legend cells st5))
            = pages_shown (canvas st5)) as ->.
    { destruct cells; [reflexivity|]. simpl. rewrite pages_shown_snoc. lia. }
    rewrite Hsh, Hs4. fold pages. lia. }
  split; [reflexivity|].
  split.
  { assert (table_bottoms (canvas (add_legend cells st5))
            = table_bottoms (canvas st5)) as ->.
    { destruct cells; [reflexivity|]. simpl. rewrite table_bottoms_app.
      simpl. apply app_nil_r. }
    rewrite Hbs, Hb4, <- app_assoc. reflexivity. }
  split; [simpl; rewrite Hlen; fold pages; lia|].
  split.
  { constructor.
    - apply Hlow. unfold lowest_page_bottom. simpl length.
      pose proof (page_rows_of_length p (row :: rows') 0). lia.
    - eapply Forall_impl; [|exact Hall]. exact Hlow. }
  split; [exact Hshown|].
  rewrite Hshown in Hpaged. lia.
Qed.

End TableOnOwnPages.

(** The sample readings on a page of their own, with the source's page size:
    one table, one page. *)
Lemma table_on_own_pages_fits_witness :
  (0 < 24 <= 26)%nat
  /\ flush_grid sample_state = Ok sample_state
  /\ build_rows (B := Reference.builtins) ph_catalog (lit "POTABLE WATER")
       sample_data = Ok (sample_rows, [(3, 3); (3, 6)])
  /\ sample_rows <> []
  /\ exists st' bs,
       add_data_table_with_limits_at (B := Reference.builtins) 24 ph_catalog
         sample_data (lit "POTABLE WATER") (Some (lit "Potable Water Data"))
         true sample_state = Done st'
       /\ length bs = 1%nat
       /\ Forall (fun b => bottom_margin <= b) bs
       /\ section_page st' = 2.
Proof.
  assert (0 < 24 <= 26)%nat as H0 by (split; [apply Nat.lt_0_succ|repeat constructor]).
  assert (flush_grid sample_state = Ok sample_state) as H1 by reflexivity.
  assert (build_rows (B := Reference.builtins) ph_catalog
            (lit "POTABLE WATER") sample_data
          = Ok (sample_rows, [(3, 3); (3, 6)])) as H2
    by (vm_compute; reflexivity).
  assert (sample_rows <> []) as H3 by discriminate.
  repeat (split; [assumption|]).
  destruct (table_on_own_pages_fits (B := Reference.builtins) 24 ph_catalog
              sample_data (lit "POTABLE WATER")
              (Some (lit "Potable Water Data")) sample_state sample_state
              sample_rows [(3, 3); (3, 6)] H0 H1 H2 H3)
    as (st' & bs & Hd & _ & Hl & Hf & _ & Hs).
  exists st', bs. split; [exact Hd|]. split; [exact Hl|].
  split; [exact Hf|exact Hs].
Defined.
